(** * Event-booking backend: the events router

    A shallow embedding of [backend/routes/events.js]: the six request
    handlers of the events router, the order in which Express tries
    them, and the SQL statements they send, read over a store of three
    tables (events, bookings, users).

    The relational store, the token check and the upload middleware are
    collaborators of the router.  They are modelled as far as the
    handlers observe them:
    - a statement sent through [db.query] either throws (the store is
      unreachable, a constraint is violated, a value is rejected) or is
      evaluated on the tables; which of the two happens is an input, the
      fault plan of the request;
    - the token check classifies a request as carrying no token, a
      rejected token, or a token decoded to an identity;
    - the upload middleware hands over the stored file name, if any. *)

From Stdlib Require Import ZArith List String Ascii Bool Lia.
From Stdlib Require Import DecimalString Sorted.
Import ListNotations.

Local Open Scope string_scope.
Local Open Scope list_scope.
Local Open Scope Z_scope.

(** ** JavaScript values, as far as the handlers look at them

    A string is the sequence of the bytes of its UTF-8 form. *)

Module Js.

(** A field of [req.body].  Numbers are integers: no handler of the
    router does arithmetic that leaves them. *)
Inductive value : Type :=
| Undefined
| Null
| Bool (b : bool)
| Num (n : Z)
| Str (s : string).

(** ToBoolean. *)
Definition truthy (v : value) : bool :=
  match v with
  | Undefined | Null => false
  | Bool b => b
  | Num n => negb (n =? 0)
  | Str s => negb (s =? "")%string
  end.

(** [a || b] *)
Definition or (a b : value) : value := if truthy a then a else b.

(** A string from its bytes. *)
Definition bytes (l : list nat) : string :=
  fold_right (fun n s => String (ascii_of_nat n) s) EmptyString l.

(** The characters [String.prototype.trim] strips, WhiteSpace and
    LineTerminator of the language, in the UTF-8 form strings have
    here: TAB, LF, VT, FF, CR, SPACE, U+00A0, U+1680, U+2000 to U+200A,
    U+2028, U+2029, U+202F, U+205F, U+3000 and U+FEFF. *)
Definition white_space : list string :=
  map bytes
    [ [9]; [10]; [11]; [12]; [13]; [32];
      [194; 160];
      [225; 154; 128];
      [226; 128; 128]; [226; 128; 129]; [226; 128; 130]; [226; 128; 131];
      [226; 128; 132]; [226; 128; 133]; [226; 128; 134]; [226; 128; 135];
      [226; 128; 136]; [226; 128; 137]; [226; 128; 138];
      [226; 128; 168]; [226; 128; 169]; [226; 128; 175];
      [226; 129; 159];
      [227; 128; 128];
      [239; 187; 191] ]%nat.

(** [s] without its prefix [p], when it has it. *)
Fixpoint strip_prefix (p s : string) : option string :=
  match p, s with
  | EmptyString, _ => Some s
  | String a p', String b s' => if (a =? b)%char then strip_prefix p' s' else None
  | String _ _, EmptyString => None
  end.

Fixpoint first_stripped (ws : list string) (s : string) : option string :=
  match ws with
  | [] => None
  | w :: ws' =>
      match strip_prefix w s with
      | Some r => Some r
      | None => first_stripped ws' s
      end
  end.

(** [s] without the white space character it starts with, if any. *)
Definition space_prefix (s : string) : option string :=
  first_stripped white_space s.

Fixpoint trim_start_from (fuel : nat) (s : string) : string :=
  match fuel with
  | O => s
  | S fuel' =>
      match space_prefix s with
      | Some r => trim_start_from fuel' r
      | None => s
      end
  end.

(** [s.trimStart()]: at most one character goes per byte of [s]. *)
Definition trim_start (s : string) : string :=
  trim_start_from (String.length s) s.

(** [s.trimEnd()]: the string is cut where only white space
    follows. *)
Fixpoint trim_end (s : string) : string :=
  match s with
  | String c r =>
      if (trim_start s =? "")%string then EmptyString else String c (trim_end r)
  | EmptyString => EmptyString
  end.

Definition trim (s : string) : string := trim_end (trim_start s).

(** [x && x.trim() !== ""] for a query-string parameter that was sent. *)
Definition nonblank (x : string) : bool :=
  truthy (Str x) && negb (trim x =? "")%string.

(** A parameter of [req.query]: not sent, sent once (a string), sent
    several times (an array of strings), or sent with keys in brackets
    (an object). *)
Inductive query : Type :=
| Absent
| Text (s : string)
| Several (values : list string)
| Keyed (fields : list (string * string)).

(** Strings have a [trim] method, arrays and objects have none. *)
Definition has_trim (x : query) : bool :=
  match x with
  | Several _ | Keyed _ => false
  | Absent | Text _ => true
  end.

Definition of_option (x : option string) : query :=
  match x with
  | Some s => Text s
  | None => Absent
  end.

(** [protocol://host/uploads/filename] *)
Definition upload_url (protocol host filename : string) : string :=
  (protocol ++ "://" ++ host ++ "/uploads/" ++ filename)%string.

End Js.

(** ** The store's reading of the values it is sent *)

Module Sql.

Definition is_digit (c : ascii) : bool :=
  let n := nat_of_ascii c in ((48 <=? n) && (n <=? 57))%nat.

Definition digit (c : ascii) : Z := Z.of_nat (nat_of_ascii c) - 48.

Fixpoint digits_prefix (s : string) (acc : Z) : Z :=
  match s with
  | String c r => if is_digit c then digits_prefix r (10 * acc + digit c) else acc
  | EmptyString => acc
  end.

(** The blanks that may precede a number: TAB, LF, VT, FF, CR and
    SPACE. *)
Definition is_space (c : ascii) : bool :=
  let n := nat_of_ascii c in
  ((9 <=? n) && (n <=? 13))%nat || (n =? 32)%nat.

Fixpoint skip_spaces (s : string) : string :=
  match s with
  | String c r => if is_space c then skip_spaces r else s
  | EmptyString => EmptyString
  end.

(** A string compared with, or stored in, an integer column: its
    leading integer, 0 when it has none.  Fractions and exponents are
    left out of the model. *)
Definition number (s : string) : Z :=
  match skip_spaces s with
  | String "-" r => - digits_prefix r 0
  | String "+" r => digits_prefix r 0
  | r => digits_prefix r 0
  end.

(** A bound value read by an integer column.  The router binds no
    NULL to such a column (the handler puts a default in its place);
    it reads as 0 here. *)
Definition int (v : Js.value) : Z :=
  match v with
  | Js.Undefined | Js.Null => 0
  | Js.Bool b => if b then 1 else 0
  | Js.Num n => n
  | Js.Str s => number s
  end.

(** A bound value read by a text column. *)
Definition text (v : Js.value) : option string :=
  match v with
  | Js.Undefined | Js.Null => None
  | Js.Bool b => Some (if b then "1" else "0")
  | Js.Num n => Some (NilZero.string_of_int (Z.to_int n))
  | Js.Str s => Some s
  end.

(** A DATETIME in the store's numeric form: the calendar date as
    YYYYMMDD and the time of day as HHMMSS. *)
Record datetime : Type := mk_datetime { date_part : Z; time_part : Z }.

Definition zero_datetime : datetime := mk_datetime 0 0.

(** The runs of digits of a literal, in order, each with the number
    of its digits; any other character separates two runs. *)
Fixpoint fields_from (s : string) (cur : option (nat * Z)) : list (nat * Z) :=
  match s with
  | String c r =>
      if is_digit c
      then fields_from r
             (Some (match cur with
                    | Some (k, n) => (S k, 10 * n + digit c)
                    | None => (1%nat, digit c)
                    end))
      else match cur with
           | Some f => f :: fields_from r None
           | None => fields_from r None
           end
  | EmptyString => match cur with Some f => [f] | None => [] end
  end.

Definition fields (s : string) : list (nat * Z) := fields_from s None.

Definition valid_date (y m d : Z) : bool :=
  (0 <=? y) && (y <=? 9999) && (1 <=? m) && (m <=? 12) && (1 <=? d) && (d <=? 31).

Definition valid_time (h mi se : Z) : bool :=
  (0 <=? h) && (h <=? 23) && (0 <=? mi) && (mi <=? 59) && (0 <=? se) && (se <=? 59).

Definition make_datetime (y m d h mi se : Z) : option datetime :=
  if valid_date y m d && valid_time h mi se
  then Some (mk_datetime (y * 10000 + m * 100 + d) (h * 10000 + mi * 100 + se))
  else None.

(** A year written with one or two digits: 70 to 99 are 1970 to 1999,
    0 to 69 are 2000 to 2069. *)
Definition year_of (digits : nat) (y : Z) : Z :=
  if (digits <=? 2)%nat then (if y <? 70 then 2000 + y else 1900 + y) else y.

(** A literal without delimiters: YYYYMMDD, YYMMDD, and the same
    followed by hhmmss. *)
Definition undelimited (digits : nat) (n : Z) : option datetime :=
  let date_of k := make_datetime (k / 10000) (k / 100 mod 100) (k mod 100) in
  let time_of t (f : Z -> Z -> Z -> option datetime) :=
    f (t / 10000) (t / 100 mod 100) (t mod 100) in
  match digits with
  | 8%nat => date_of n 0 0 0
  | 6%nat => make_datetime (year_of 2 (n / 10000)) (n / 100 mod 100) (n mod 100) 0 0 0
  | 14%nat => time_of (n mod 1000000) (date_of (n / 1000000))
  | 12%nat =>
      time_of (n mod 1000000)
        (make_datetime (year_of 2 (n / 10000000000)) (n / 100000000 mod 100)
                       (n / 1000000 mod 100))
  | _ => None
  end.

Definition starts_with_digit (s : string) : bool :=
  match s with
  | String c _ => is_digit c
  | EmptyString => false
  end.

(** A date or date-and-time literal: blanks may come first, then
    year, month, day and up to three time fields with any delimiters,
    or one run of digits. *)
Definition datetime_of_string (s : string) : option datetime :=
  if starts_with_digit (skip_spaces s)
  then match fields s with
       | [(k, n)] => undelimited k n
       | [(k, y); (_, m); (_, d)] => make_datetime (year_of k y) m d 0 0 0
       | [(k, y); (_, m); (_, d); (_, h)] => make_datetime (year_of k y) m d h 0 0
       | [(k, y); (_, m); (_, d); (_, h); (_, mi)] =>
           make_datetime (year_of k y) m d h mi 0
       | [(k, y); (_, m); (_, d); (_, h); (_, mi); (_, se)] =>
           make_datetime (year_of k y) m d h mi se
       | _ => None
       end
  else None.

(** A bound value read by a DATETIME column; a value that is no
    date is stored as the zero date. *)
Definition to_datetime (v : Js.value) : datetime :=
  match v with
  | Js.Str s => match datetime_of_string s with Some t => t | None => zero_datetime end
  | _ => zero_datetime
  end.

(** The calendar date a literal stands for when it is compared with
    a DATE: the literal is read as a date and time, and a DATE is its
    own midnight, so a literal with a time of day equals no DATE. *)
Definition date_of_literal (lit : string) : option Z :=
  match datetime_of_string lit with
  | Some d => if time_part d =? 0 then Some (date_part d) else None
  | None => None
  end.

(** [DATE(t) = ?] *)
Definition date_eq (t : datetime) (lit : string) : bool :=
  match date_of_literal lit with
  | Some day => date_part t =? day
  | None => false
  end.

(** [ORDER BY] on a DATETIME column. *)
Definition datetime_leb (a b : datetime) : bool :=
  (date_part a <? date_part b)
  || ((date_part a =? date_part b) && (time_part a <=? time_part b)).

Definition lower (c : ascii) : ascii :=
  let n := nat_of_ascii c in
  if ((65 <=? n) && (n <=? 90))%nat then ascii_of_nat (n + 32) else c.

Definition char_eq_ci (a b : ascii) : bool := (lower a =? lower b)%char.

(** [text LIKE pattern] under a case-insensitive collation: [%]
    stands for any run of characters, [_] for any one character, and a
    backslash takes the next character literally. *)
Fixpoint like (p : string) : string -> bool :=
  match p with
  | EmptyString => fun t => match t with EmptyString => true | _ => false end
  | String "%" p' =>
      fix any (t : string) : bool :=
        like p' t || match t with String _ t' => any t' | EmptyString => false end
  | String "_" p' =>
      fun t => match t with String _ t' => like p' t' | EmptyString => false end
  | String "\" (String c p') =>
      fun t => match t with
               | String d t' => char_eq_ci c d && like p' t'
               | EmptyString => false
               end
  | String c p' =>
      fun t => match t with
               | String d t' => char_eq_ci c d && like p' t'
               | EmptyString => false
               end
  end.

Section Sort.
Context {A : Type} (leb : A -> A -> bool).

(** [x], which came before the rows of [l], goes in front of the
    first row that is not smaller than it. *)
Fixpoint insert_sorted (x : A) (l : list A) : list A :=
  match l with
  | [] => [x]
  | y :: r => if leb x y then x :: l else y :: insert_sorted x r
  end.

(** [ORDER BY], rows with equal keys staying in their order. *)
Definition order_by (l : list A) : list A :=
  fold_right insert_sorted [] l.
End Sort.

End Sql.

(** ** The tables *)

Module Events.
Record row : Type := mk {
  event_id : Z;
  title : string;
  description : option string;
  date : Sql.datetime;
  location : option string;
  price : Z;
  image_url : string;
  mode : string;
  meeting_link : option string;
  capacity : Z;
  organizer_id : Z;
  available_seats : Z
}.

(** A result row [e.*, x AS available_seats]: the driver builds one
    object per row, and the later column of a name takes the key. *)
Definition with_available_seats (e : row) (x : Z) : row :=
  mk (event_id e) (title e) (description e) (date e) (location e) (price e)
     (image_url e) (mode e) (meeting_link e) (capacity e) (organizer_id e) x.
End Events.

Module Bookings.
Record row : Type := mk {
  booking_id : Z;
  event_id : Z;
  user_id : Z;
  booking_date : Sql.datetime;
  status : string
}.
End Bookings.

Module Users.
Record row : Type := mk {
  user_id : Z;
  name : string;
  email : string;
  role : string
}.
End Users.

Record Db : Type := mk_db {
  events : list Events.row;
  bookings : list Bookings.row;
  users : list Users.row;
  (** the AUTO_INCREMENT counter of [events] *)
  next_event_id : Z
}.

(** ** Running a handler: statements that may throw *)

(** One entry per statement of the request, in the order they are
    sent: [Some msg] makes the statement throw an error whose message
    is [msg]; [None], or a plan that has run out, lets it through. *)
Definition fault_plan : Type := list (option string).

Inductive outcome (A : Type) : Type :=
| Threw (message : string)
| Done (a : A).
Arguments Threw {A} message.
Arguments Done {A} a.

Definition M (A : Type) : Type := Db -> fault_plan -> outcome A * Db * fault_plan.

Definition ret {A} (a : A) : M A := fun db plan => (Done a, db, plan).

Definition bind {A B} (m : M A) (k : A -> M B) : M B :=
  fun db plan =>
    match m db plan with
    | (Threw msg, db', plan') => (Threw msg, db', plan')
    | (Done a, db', plan') => k a db' plan'
    end.

(** [throw new TypeError(message)], as a failed call raises. *)
Definition raise {A} (message : string) : M A :=
  fun db plan => (Threw message, db, plan).

Notation "x <- m ;; k" := (bind m (fun x => k))
  (at level 61, m at next level, right associativity).

(** [await db.query(...)]: the statement [stmt] is evaluated on the
    tables unless the plan makes it throw; a statement that throws
    leaves the tables as they were. *)
Definition db_query {A} (stmt : Db -> A * Db) : M A :=
  fun db plan =>
    match plan with
    | Some msg :: rest => (Threw msg, db, rest)
    | None :: rest => let (a, db') := stmt db in (Done a, db', rest)
    | [] => let (a, db') := stmt db in (Done a, db', [])
    end.

(** ** Requests and responses *)

Record attendee : Type := mk_attendee {
  name : string;
  email : string;
  booking_date : Sql.datetime;
  status : string
}.

(** The JSON bodies the router sends. *)
Inductive payload : Type :=
| Error (error : string)
| Rows (rows : list Events.row)
| Row (event : Events.row)
| Roster (event : Events.row) (attendees : list attendee) (total_revenue : Z)
| Created (message : string) (eventId : Z)
| Message (message : string).

Record response : Type := mk_response { code : Z; body : payload }.

(** [res.status(c).json(p)]; [res.json(p)] is [json 200 p]. *)
Definition json (c : Z) (p : payload) : response := mk_response c p.

(** [try { ... } catch (err) { ... }] around a handler body. *)
Definition try_catch (m : M response) (handler : string -> response)
  : Db -> fault_plan -> response * Db :=
  fun db plan =>
    match m db plan with
    | (Threw msg, db', _) => (handler msg, db')
    | (Done r, db', _) => (r, db')
    end.

(** [req.user], the decoded token. *)
Record identity : Type := mk_identity { user_id : Z; role : string }.

Inductive credential : Type :=
| NoToken
| BadToken
| Token (user : identity).

Module Body.
Record fields : Type := mk {
  title : Js.value;
  description : Js.value;
  date : Js.value;
  location : Js.value;
  price : Js.value;
  mode : Js.value;
  meeting_link : Js.value;
  capacity : Js.value
}.

(** What destructuring reads from a form that has no field. *)
Definition nothing : fields :=
  mk Js.Undefined Js.Undefined Js.Undefined Js.Undefined
     Js.Undefined Js.Undefined Js.Undefined Js.Undefined.
End Body.

Inductive method : Type := GET | POST | DELETE.

Record request : Type := make_request {
  req_method : method;
  (** the path below the mount point, without its first slash, split
      at the slashes; no segment for the root *)
  req_path : list string;
  query_location : Js.query;
  query_date : Js.query;
  authorization : credential;
  (** [req.body]: [None] when no parser has filled it *)
  body_sent : option Body.fields;
  (** [req.file.filename], when an image came with the request *)
  req_file : option string;
  protocol : string;
  host : string
}.

(** The fields of [req.body] when there is one. *)
Definition req_body (req : request) : Body.fields :=
  match body_sent req with
  | Some form => form
  | None => Body.nothing
  end.

(** A request whose filters were sent at most once and whose body was
    parsed. *)
Definition mk_request (m : method) (path : list string)
    (location date : option string) (who : credential) (form : Body.fields)
    (file : option string) (proto hostname : string) : request :=
  make_request m path (Js.of_option location) (Js.of_option date) who (Some form)
               file proto hostname.

(** [authenticateToken] in front of a handler that takes [req.user]. *)
Definition authenticateToken (req : request)
    (next : identity -> Db -> fault_plan -> response * Db)
  : Db -> fault_plan -> response * Db :=
  fun db plan =>
    match authorization req with
    | NoToken => (json 401 (Error "Missing token"), db)
    | BadToken => (json 403 (Error "Invalid token"), db)
    | Token user => next user db plan
    end.


(** ** The statements of the router, read on the tables *)

Module Stmt.

(** A statement that only reads. *)
Definition reading {A} (f : Db -> A) : Db -> A * Db := fun db => (f db, db).

(** The bookings joined to an event by [ON e.event_id = b.event_id];
    the outer join puts a NULL booking where there is none. *)
Definition matches_or_null (e : Events.row) (bs : list Bookings.row)
  : list (option Bookings.row) :=
  match filter (fun b => Events.event_id e =? Bookings.event_id b) bs with
  | [] => [None]
  | matched => map Some matched
  end.

(** [FROM events e LEFT JOIN bookings b ON e.event_id = b.event_id] *)
Definition left_join (es : list Events.row) (bs : list Bookings.row)
  : list (Events.row * option Bookings.row) :=
  flat_map (fun e => map (pair e) (matches_or_null e bs)) es.

(** One clause [AND ...] per filter the handler appended. *)
Definition where_all (clauses : list (Events.row -> bool)) (e : Events.row) : bool :=
  forallb (fun c => c e) clauses.

(** [e.location LIKE ?]; a NULL location matches nothing. *)
Definition location_like (pattern : string) (e : Events.row) : bool :=
  match Events.location e with
  | Some l => Sql.like pattern l
  | None => false
  end.

(** [DATE(e.date) = ?] *)
Definition date_is (lit : string) (e : Events.row) : bool :=
  Sql.date_eq (Events.date e) lit.

Definition group : Type := (Events.row * list (option Bookings.row))%type.

(** A joined row joins the group of its [event_id], or opens one. *)
Fixpoint add_to_groups (r : Events.row * option Bookings.row) (gs : list group)
  : list group :=
  match gs with
  | [] => [(fst r, [snd r])]
  | (e, members) :: rest =>
      if Events.event_id e =? Events.event_id (fst r)
      then (e, members ++ [snd r]) :: rest
      else (e, members) :: add_to_groups r rest
  end.

(** [GROUP BY e.event_id] *)
Definition group_by_event_id (rows : list (Events.row * option Bookings.row))
  : list group :=
  fold_left (fun gs r => add_to_groups r gs) rows [].

(** [COUNT(b.booking_id)]: the rows of the group whose booking is
    not NULL. *)
Definition count_booking_id (members : list (option Bookings.row)) : Z :=
  Z.of_nat
    (List.length (filter (fun m => match m with Some _ => true | None => false end) members)).

(** [SELECT e.*, (e.capacity - COUNT(b.booking_id)) AS available_seats] *)
Definition seats_row (g : group) : Events.row :=
  Events.with_available_seats (fst g)
    (Events.capacity (fst g) - count_booking_id (snd g)).

Definition by_date_asc (a b : Events.row) : bool :=
  Sql.datetime_leb (Events.date a) (Events.date b).

Definition by_date_desc (a b : Events.row) : bool :=
  Sql.datetime_leb (Events.date b) (Events.date a).

(** The listing statement with the clauses of the request. *)
Definition select_events_with_seats (clauses : list (Events.row -> bool)) (db : Db)
  : list Events.row :=
  let joined := left_join (events db) (bookings db) in
  let kept := filter (fun r => where_all clauses (fst r)) joined in
  let groups := group_by_event_id kept in
  Sql.order_by by_date_asc (map seats_row groups).

(** [SELECT * FROM events WHERE event_id = ?] *)
Definition select_event (id : string) (db : Db) : list Events.row :=
  filter (fun e => Events.event_id e =? Sql.number id) (events db).

(** [SELECT * FROM events WHERE organizer_id = ? ORDER BY date DESC] *)
Definition select_events_of (organizer : Z) (db : Db) : list Events.row :=
  Sql.order_by by_date_desc
    (filter (fun e => Events.organizer_id e =? organizer) (events db)).

(** [SELECT * FROM events WHERE event_id = ? AND organizer_id = ?] *)
Definition select_owned_event (id : string) (organizer : Z) (db : Db)
  : list Events.row :=
  filter
    (fun e => (Events.event_id e =? Sql.number id) && (Events.organizer_id e =? organizer))
    (events db).

(** [SELECT u.name, u.email, b.booking_date, b.status
     FROM bookings b JOIN users u ON b.user_id = u.user_id
     WHERE b.event_id = ?] *)
Definition select_attendees (id : string) (db : Db) : list attendee :=
  let joined :=
    flat_map
      (fun b =>
         map (fun u => (b, u))
             (filter (fun u => Bookings.user_id b =? Users.user_id u) (users db)))
      (bookings db) in
  let kept := filter (fun r => Bookings.event_id (fst r) =? Sql.number id) joined in
  map (fun r => mk_attendee (Users.name (snd r)) (Users.email (snd r))
                            (Bookings.booking_date (fst r)) (Bookings.status (fst r)))
      kept.

(** [INSERT INTO events (title, ..., available_seats) VALUES (?, ..., ?)]:
    the row takes the next [event_id]; the result is [insertId]. *)
Definition insert_event
    (title description date location price image_url mode meeting_link
       capacity organizer_id available_seats : Js.value) (db : Db) : Z * Db :=
  let id := next_event_id db in
  let text_of v := match Sql.text v with Some s => s | None => "" end in
  let row :=
    Events.mk id (text_of title) (Sql.text description) (Sql.to_datetime date)
      (Sql.text location) (Sql.int price) (text_of image_url) (text_of mode)
      (Sql.text meeting_link) (Sql.int capacity) (Sql.int organizer_id)
      (Sql.int available_seats) in
  (id, mk_db (events db ++ [row]) (bookings db) (users db) (id + 1)).

(** [DELETE FROM events WHERE ...]: the result is [affectedRows]. *)
Definition delete_events (cond : Events.row -> bool) (db : Db) : Z * Db :=
  (Z.of_nat (List.length (filter cond (events db))),
   mk_db (filter (fun e => negb (cond e)) (events db))
         (bookings db) (users db) (next_event_id db)).

End Stmt.

(** ** The handlers *)

(** [if (x && x.trim() !== "") { query += clause; params.push(...) }]:
    an absent or empty [x] is falsy and [trim] is not called; an array
    or an object is truthy and has no [trim], so the call throws. *)
Definition optional_clause (x : Js.query) (clause : string -> Events.row -> bool)
  : M (list (Events.row -> bool)) :=
  match x with
  | Js.Absent => ret []
  | Js.Text s => if Js.nonblank s then ret [clause s] else ret []
  | Js.Several _ | Js.Keyed _ => raise "trim is not a function"
  end.

(** 1. [router.get("/")] *)
Definition get_events (req : request) : Db -> fault_plan -> response * Db :=
  try_catch
    (let location := query_location req in
     let date := query_date req in
     by_location <-
       optional_clause location (fun l => Stmt.location_like ("%" ++ l ++ "%")%string) ;;
     by_date <- optional_clause date Stmt.date_is ;;
     rows <- db_query
               (Stmt.reading (Stmt.select_events_with_seats (by_location ++ by_date))) ;;
     ret (json 200 (Rows rows)))
    (fun err => json 500 (Error "Failed to fetch events")).

(** 2. [router.get("/:id")] *)
Definition get_event (id : string) (req : request)
  : Db -> fault_plan -> response * Db :=
  try_catch
    (events <- db_query (Stmt.reading (Stmt.select_event id)) ;;
     match events with
     | [] => ret (json 404 (Error "Event not found"))
     | e :: _ => ret (json 200 (Row e))
     end)
    (fun err => json 500 (Error err)).

(** 3. [router.get("/my-events", authenticateToken, ...)] *)
Definition get_my_events (req : request) : Db -> fault_plan -> response * Db :=
  authenticateToken req (fun user =>
    try_catch
      (rows <- db_query (Stmt.reading (Stmt.select_events_of (user_id user))) ;;
       ret (json 200 (Rows rows)))
      (fun err => json 500 (Error err))).

(** 4. [router.get("/:id/attendees", authenticateToken, ...)] *)
Definition get_attendees (id : string) (req : request)
  : Db -> fault_plan -> response * Db :=
  authenticateToken req (fun user =>
    try_catch
      (let eventId := id in
       let organizerId := user_id user in
       event <- db_query (Stmt.reading (Stmt.select_owned_event eventId organizerId)) ;;
       match event with
       | [] => ret (json 403 (Error "Unauthorized or Event not found"))
       | event0 :: _ =>
           attendees <- db_query (Stmt.reading (Stmt.select_attendees eventId)) ;;
           ret (json 200
                  (Roster event0 attendees
                          (Z.of_nat (List.length attendees) * Events.price event0)))
       end)
      (fun err => json 500 (Error "Server error fetching attendees"))).

(** 5. [router.post("/", authenticateToken, upload.single("image"), ...)] *)
Definition post_event (req : request) : Db -> fault_plan -> response * Db :=
  authenticateToken req (fun user =>
    try_catch
      (b <- match body_sent req with
            | Some form => ret form
            | None => raise "Cannot destructure property 'title' of 'req.body'"
            end ;;
       if negb (Js.truthy (Body.title b)) || negb (Js.truthy (Body.date b))
       then ret (json 400 (Error "Title and Date are required"))
       else
         let imageUrl :=
           match req_file req with
           | Some filename => Js.upload_url (protocol req) (host req) filename
           | None => "https://via.placeholder.com/300"
           end in
         let finalCapacity := Js.or (Body.capacity b) (Js.Num 100) in
         let finalMode := Js.or (Body.mode b) (Js.Str "physical") in
         let finalPrice := Js.or (Body.price b) (Js.Num 0) in
         insertId <- db_query
           (Stmt.insert_event (Body.title b) (Body.description b) (Body.date b)
              (Body.location b) finalPrice (Js.Str imageUrl) finalMode
              (Body.meeting_link b) finalCapacity (Js.Num (user_id user))
              finalCapacity) ;;
         ret (json 201 (Created "✅ Event created successfully" insertId)))
      (fun err => json 500 (Error "Server error creating event"))).

(** 6. [router.delete("/:id", authenticateToken, ...)] *)
Definition delete_event (id : string) (req : request)
  : Db -> fault_plan -> response * Db :=
  authenticateToken req (fun user =>
    try_catch
      (let eventId := id in
       let userId := user_id user in
       let cond :=
         if (role user =? "admin")%string
         then fun e => Events.event_id e =? Sql.number eventId
         else fun e => (Events.event_id e =? Sql.number eventId)
                       && (Events.organizer_id e =? userId) in
       affectedRows <- db_query (Stmt.delete_events cond) ;;
       if affectedRows =? 0
       then ret (json 404 (Error "Event not found or unauthorized"))
       else ret (json 200 (Message "🗑️ Event deleted successfully")))
      (fun err => json 500 (Error err))).

(** ** The router: routes are tried in the order they were added *)

Inductive segment : Type :=
| Lit (s : string)
| Param.

(** Route paths are matched without regard to case. *)
Fixpoint eqb_ci (a b : string) : bool :=
  match a, b with
  | EmptyString, EmptyString => true
  | String c a', String d b' => Sql.char_eq_ci c d && eqb_ci a' b'
  | _, _ => false
  end.

(** A path against a route pattern; the result is [req.params], in
    order.  A parameter takes one segment that is not empty. *)
Fixpoint match_path (pattern : list segment) (path : list string)
  : option (list string) :=
  match pattern, path with
  | [], [] => Some []
  | Lit s :: pattern', x :: path' =>
      if eqb_ci s x then match_path pattern' path' else None
  | Param :: pattern', x :: path' =>
      if (x =? "")%string then None
      else option_map (cons x) (match_path pattern' path')
  | _, _ => None
  end.

(** With strict routing off, one slash at the end of the path is
    not looked at. *)
Fixpoint strip_slash (path : list string) : list string :=
  match path with
  | [] => []
  | [x] => if (x =? "")%string then [] else [x]
  | x :: rest => x :: strip_slash rest
  end.

Record route : Type := mk_route {
  route_method : method;
  route_pattern : list segment;
  route_handler : list string -> request -> Db -> fault_plan -> response * Db
}.

Definition method_eqb (a b : method) : bool :=
  match a, b with
  | GET, GET | POST, POST | DELETE, DELETE => true
  | _, _ => false
  end.

(** The first parameter of the route, [req.params.id]. *)
Definition with_id (h : string -> request -> Db -> fault_plan -> response * Db)
  : list string -> request -> Db -> fault_plan -> response * Db :=
  fun params => h (hd "" params).

(** The routes in the order the file adds them. *)
Definition router : list route :=
  [ mk_route GET [] (fun _ => get_events);
    mk_route GET [Param] (with_id get_event);
    mk_route GET [Lit "my-events"] (fun _ => get_my_events);
    mk_route GET [Param; Lit "attendees"] (with_id get_attendees);
    mk_route POST [] (fun _ => post_event);
    mk_route DELETE [Param] (with_id delete_event) ].

(** The first route whose method and pattern match takes the request;
    every handler of this router answers, so no later route is tried.
    [None]: no route of this router matches. *)
Fixpoint dispatch (routes : list route) (req : request)
  : option (Db -> fault_plan -> response * Db) :=
  match routes with
  | [] => None
  | r :: rest =>
      if method_eqb (route_method r) (req_method req)
      then match match_path (route_pattern r) (strip_slash (req_path req)) with
           | Some params => Some (route_handler r params req)
           | None => dispatch rest req
           end
      else dispatch rest req
  end.

Definition handle (req : request) : option (Db -> fault_plan -> response * Db) :=
  dispatch router req.


(** ** The store's constraints and the vocabulary of the statements *)

(** [event_id] is the primary key of [events]. *)
Definition events_keyed (db : Db) : Prop :=
  NoDup (map Events.event_id (events db)).

(** [user_id] is the primary key of [users]. *)
Definition users_keyed (db : Db) : Prop :=
  NoDup (map Users.user_id (users db)).

(** [bookings.user_id] is a foreign key into [users]. *)
Definition bookings_have_users (db : Db) : Prop :=
  forall b, In b (bookings db) ->
            In (Bookings.user_id b) (map Users.user_id (users db)).

(** The booking rows that refer to an event. *)
Definition bookings_of (db : Db) (event : Z) : list Bookings.row :=
  filter (fun b => Bookings.event_id b =? event) (bookings db).

Definition booked (db : Db) (e : Events.row) : Z :=
  Z.of_nat (List.length (bookings_of db (Events.event_id e))).

(** An event as the listing shows it. *)
Definition listed (db : Db) (e : Events.row) : Events.row :=
  Events.with_available_seats e (Events.capacity e - booked db e).

(** None of the first [n] statements of the request throws. *)
Fixpoint lets_through (n : nat) (plan : fault_plan) : bool :=
  match n, plan with
  | O, _ => true
  | S _, [] => true
  | S _, Some _ :: _ => false
  | S n', None :: rest => lets_through n' rest
  end.

(** A query-string filter that was not sent, or was sent blank. *)
Definition filter_absent (x : Js.query) : Prop :=
  match x with
  | Js.Text s => Js.nonblank s = false
  | Js.Absent => True
  | Js.Several _ | Js.Keyed _ => False
  end.

(** What the router answers to a request, and the tables it leaves;
    [None] when none of its routes takes the request. *)
Definition answers (req : request) (db : Db) (plan : fault_plan)
  : option (response * Db) :=
  option_map (fun h => h db plan) (handle req).

(** The clause a filter that has [trim] stands for, if any. *)
Definition clause_of (x : Js.query) (clause : string -> Events.row -> bool)
  : list (Events.row -> bool) :=
  match x with
  | Js.Text s => if Js.nonblank s then [clause s] else []
  | _ => []
  end.

(** The clauses [router.get("/")] appends for a request. *)
Definition listing_clauses (req : request) : list (Events.row -> bool) :=
  clause_of (query_location req)
    (fun l => Stmt.location_like ("%" ++ l ++ "%")%string)
  ++ clause_of (query_date req) Stmt.date_is.

(** Both filters of the request can be trimmed. *)
Definition filters_have_trim (req : request) : bool :=
  Js.has_trim (query_location req) && Js.has_trim (query_date req).

(** A small store: event 1 has three bookings out of fifty seats, event
    2 has two bookings for its one seat, event 3 has no booking. *)
Module Sample.

Definition event (id capacity organizer day clock : Z) : Events.row :=
  Events.mk id "Meetup" None (Sql.mk_datetime day clock) (Some "New Delhi") 20
    "https://via.placeholder.com/300" "physical" None capacity organizer capacity.

Definition booking (id event user : Z) (status : string) : Bookings.row :=
  Bookings.mk id event user (Sql.mk_datetime 20240401 90000) status.

Definition db : Db :=
  mk_db
    [event 1 50 7 20240502 180000; event 2 1 8 20240501 93000; event 3 5 7 20240502 0]
    [booking 1 1 20 "confirmed"; booking 2 2 20 "confirmed";
     booking 3 2 21 "cancelled"; booking 4 1 21 "confirmed";
     booking 5 1 22 "pending"]
    [Users.mk 20 "Asha" "asha@example.org" "attendee";
     Users.mk 21 "Ravi" "ravi@example.org" "attendee";
     Users.mk 22 "Meena" "meena@example.org" "attendee"]
    4.

(** The bookings of the store, all of them cancelled. *)
Definition all_cancelled : list Bookings.row :=
  map (fun b => Bookings.mk (Bookings.booking_id b) (Bookings.event_id b)
                            (Bookings.user_id b) (Bookings.booking_date b) "cancelled")
      (bookings db).

(** A creation form that names a title and a date and nothing else. *)
Definition title_and_date : Body.fields :=
  Body.mk (Js.Str "Rocq meetup") Js.Undefined (Js.Str "2024-06-01T18:30")
          Js.Undefined Js.Undefined Js.Undefined Js.Undefined Js.Undefined.

Definition no_fields : Body.fields :=
  Body.mk Js.Undefined Js.Undefined Js.Undefined Js.Undefined
          Js.Undefined Js.Undefined Js.Undefined Js.Undefined.

Definition request (m : method) (path : list string) (who : credential) : request :=
  mk_request m path None None who no_fields None "https" "events.example.org".

Definition organizer7 : credential := Token (mk_identity 7 "organizer").

End Sample.


(** The caller owns the event the path names: the condition of the
    ownership statement of the roster. *)
Definition owns (user : identity) (id : string) (e : Events.row) : bool :=
  (Events.event_id e =? Sql.number id) && (Events.organizer_id e =? user_id user).

(** No event of the store is both the one named and the caller's: the
    event is missing, or it is another organizer's. *)
Definition not_owner (db : Db) (user : identity) (id : string) : Prop :=
  forall e, In e (events db) -> owns user id e = false.

(** A roster entry made from a booking and the user it refers to. *)
Definition entry_of (db : Db) (b : Bookings.row) (a : attendee) : Prop :=
  booking_date a = Bookings.booking_date b
  /\ status a = Bookings.status b
  /\ exists u, In u (users db)
               /\ Users.user_id u = Bookings.user_id b
               /\ name a = Users.name u
               /\ email a = Users.email u.

(** The same store with one more event, for comparing a store that
    lacks an event with one that has it. *)
Definition with_event (db : Db) (e : Events.row) : Db :=
  mk_db (events db ++ [e]) (bookings db) (users db) (next_event_id db).







(** The same tables with other bookings. *)
Definition with_bookings (db : Db) (bs : list Bookings.row) : Db :=
  mk_db (events db) bs (users db) (next_event_id db).

(** [db'] is [db] less the one event [e]; bookings and users are as
    they were. *)
Definition removes_only (db db' : Db) (e : Events.row) : Prop :=
  (forall x, In x (events db') <-> In x (events db) /\ x <> e)
  /\ List.length (events db) = S (List.length (events db'))
  /\ bookings db' = bookings db
  /\ users db' = users db.

(** A string made of white space characters only (the empty string
    too). *)
Definition blank (s : string) : Prop :=
  exists spaces,
    Forall (fun w => In w Js.white_space) spaces
    /\ s = fold_right String.append "" spaces.


Definition group_id (g : Stmt.group) : Z := Events.event_id (fst g).

(** ** The token check on the header, and the client that sets it *)

Module Auth.

(** [s.split(" ")]: the pieces between single spaces; a string without
    a space is its only piece. *)
Fixpoint split_space (s : string) : list string :=
  match s with
  | EmptyString => [""]
  | String c r =>
      if (c =? " ")%char then "" :: split_space r
      else match split_space r with
           | w :: ws => String c w :: ws
           | [] => [String c ""]
           end
  end.

(** [authHeader && authHeader.split(" ")[1]], when it is truthy: the
    second piece of the header, if the header has one that is not
    empty. *)
Definition bearer_token (authHeader : option string) : option string :=
  match authHeader with
  | None => None
  | Some h =>
      if (h =? "")%string then None
      else match nth_error (split_space h) 1 with
           | Some t => if (t =? "")%string then None else Some t
           | None => None
           end
  end.

(** What [authenticateToken] makes of the header: [jwt_verify] is
    [jwt.verify(token, process.env.JWT_SECRET, ...)], which yields the
    decoded identity or an error. *)
Definition credential_of (jwt_verify : string -> option identity)
    (authHeader : option string) : credential :=
  match bearer_token authHeader with
  | None => NoToken
  | Some token =>
      match jwt_verify token with
      | None => BadToken
      | Some user => Token user
      end
  end.

End Auth.

(** The axios instance of the front end. *)
Module Client.

(** [process.env.REACT_APP_API_URL || "http://localhost:5001/api"] *)
Definition baseURL (env : option string) : string :=
  match env with
  | Some u => if (u =? "")%string then "http://localhost:5001/api" else u
  | None => "http://localhost:5001/api"
  end.

(** The request interceptor, on the [Authorization] header of the
    request configuration: [stored] is [localStorage.getItem('token')]. *)
Definition request_interceptor (stored : option string)
    (authorization_header : option string) : option string :=
  match stored with
  | Some token =>
      if (token =? "")%string then authorization_header
      else Some ("Bearer " ++ token)%string
  | None => authorization_header
  end.

End Client.

(** ** More vocabulary: invariants of the tables and shapes of text *)

Fixpoint no_space (s : string) : bool :=
  match s with
  | String c r => negb (c =? " ")%char && no_space r
  | EmptyString => true
  end.

(** Text without the characters [LIKE] reads as a pattern. *)
Fixpoint plain (s : string) : bool :=
  match s with
  | String c r =>
      negb (c =? "%")%char && negb (c =? "_")%char && negb (c =? "\")%char && plain r
  | EmptyString => true
  end.

(** [l] occurs in [t], letters compared without regard to case. *)
Definition contains_ci (l t : string) : Prop :=
  exists before found after,
    t = (before ++ found ++ after)%string /\ eqb_ci l found = true.

(** A string of percent signs. *)
Fixpoint percents (s : string) : bool :=
  match s with
  | String c r => (c =? "%")%char && percents r
  | EmptyString => true
  end.

(** The AUTO_INCREMENT counter is above every id in use. *)
Definition counter_ahead (db : Db) : Prop :=
  forall e, In e (events db) -> Events.event_id e < next_event_id db.

Definition well_keyed (db : Db) : Prop := events_keyed db /\ counter_ahead db.

(** No booking refers to an id the counter has not given out yet. *)
Definition bookings_behind_counter (db : Db) : Prop :=
  forall b, In b (bookings db) -> Bookings.event_id b < next_event_id db.

(** The request with another credential, and with another path. *)
Definition with_authorization (req : request) (who : credential) : request :=
  make_request (req_method req) (req_path req) (query_location req) (query_date req)
    who (body_sent req) (req_file req) (protocol req) (host req).

(** The request without its [location] parameter. *)
Definition without_location (req : request) : request :=
  make_request (req_method req) (req_path req) Js.Absent (query_date req)
    (authorization req) (body_sent req) (req_file req) (protocol req) (host req).

(** The routes as a table: which handler takes which method and path. *)
Definition routing_table (req : request)
  : option (Db -> fault_plan -> response * Db) :=
  match req_method req, strip_slash (req_path req) with
  | GET, [] => Some (get_events req)
  | GET, [id] => if (id =? "")%string then None else Some (get_event id req)
  | GET, [id; last] =>
      if (id =? "")%string then None
      else if eqb_ci "attendees" last then Some (get_attendees id req) else None
  | POST, [] => Some (post_event req)
  | DELETE, [id] => if (id =? "")%string then None else Some (delete_event id req)
  | _, _ => None
  end.

(** The image address stored with a new event. *)
Definition image_url_of (req : request) : string :=
  match req_file req with
  | Some filename =>
      (protocol req ++ "://" ++ host req ++ "/uploads/" ++ filename)%string
  | None => "https://via.placeholder.com/300"
  end.

(** A sample verifier: one token is good. *)
Definition sample_verify (token : string) : option identity :=
  if (token =? "eyJhbGciOi.eyJ1c2VyX2lk.c2ln")%string
  then Some (mk_identity 7 "organizer") else None.

(** The routes that have [authenticateToken] in front of their handler. *)
Definition protected (req : request) : bool :=
  match req_method req, strip_slash (req_path req) with
  | POST, [] => true
  | DELETE, [id] => negb (id =? "")%string
  | GET, [id; last] => negb (id =? "")%string && eqb_ci "attendees" last
  | _, _ => false
  end.

(** The messages the handlers of "/", "/:id/attendees" and the creation
    put in a 500 answer. *)
Definition fixed_failure_messages : list string :=
  ["Failed to fetch events"; "Server error fetching attendees";
   "Server error creating event"].

(** The row a creation request adds: the form's values as the columns
    read them, the defaults where the form has none, the caller as
    organizer, and the next id. *)
Definition created_row (req : request) (user : identity) (db : Db) : Events.row :=
  let form := req_body req in
  let text_of v := match Sql.text v with Some s => s | None => "" end in
  Events.mk (next_event_id db)
    (text_of (Body.title form))
    (Sql.text (Body.description form))
    (Sql.to_datetime (Body.date form))
    (Sql.text (Body.location form))
    (Sql.int (Js.or (Body.price form) (Js.Num 0)))
    (image_url_of req)
    (text_of (Js.or (Body.mode form) (Js.Str "physical")))
    (Sql.text (Body.meeting_link form))
    (Sql.int (Js.or (Body.capacity form) (Js.Num 100)))
    (user_id user)
    (Sql.int (Js.or (Body.capacity form) (Js.Num 100))).

(** The tables after a creation. *)
Definition after_create (req : request) (user : identity) (db : Db) : Db :=
  mk_db (events db ++ [created_row req user db]) (bookings db) (users db)
        (next_event_id db + 1).

(** The condition of the deletion statement for a caller. *)
Definition may_delete (user : identity) (id : string) (e : Events.row) : bool :=
  if (role user =? "admin")%string
  then Events.event_id e =? Sql.number id
  else owns user id e.

(** The tables after a deletion. *)
Definition after_delete (user : identity) (id : string) (db : Db) : Db :=
  mk_db (filter (fun e => negb (may_delete user id e)) (events db))
        (bookings db) (users db) (next_event_id db).

(** The sample request for a listing filtered by location. *)
Definition sample_listing (location : option string) : request :=
  mk_request GET [] location None NoToken Sample.no_fields None
             "https" "events.example.org".

(** Text of one-byte characters only. *)
Fixpoint ascii_only (s : string) : bool :=
  match s with
  | String c r => (nat_of_ascii c <? 128)%nat && ascii_only r
  | EmptyString => true
  end.

(** Every location in the events table is written in one-byte
    characters. *)
Definition locations_ascii (db : Db) : Prop :=
  forall e t, In e (events db) -> Events.location e = Some t -> ascii_only t = true.

(** ** Facts about lists, keys and ordering *)

Section Lists.
Context {A : Type}.

Lemma in_insert_sorted (leb : A -> A -> bool) (x y : A) (l : list A) :
  In x (Sql.insert_sorted leb y l) <-> x = y \/ In x l.
Proof.
  induction l as [|z l IH]; simpl.
  - intuition.
  - destruct (leb y z); simpl; [intuition | rewrite IH; intuition].
Qed.

Lemma in_order_by (leb : A -> A -> bool) (x : A) (l : list A) :
  In x (Sql.order_by leb l) <-> In x l.
Proof.
  unfold Sql.order_by.
  induction l as [|y l IH]; simpl; [tauto|].
  rewrite in_insert_sorted, IH. intuition.
Qed.

Lemma length_insert_sorted (leb : A -> A -> bool) (y : A) (l : list A) :
  List.length (Sql.insert_sorted leb y l) = S (List.length l).
Proof.
  induction l as [|z l IH]; simpl; [reflexivity|].
  destruct (leb y z); simpl; congruence.
Qed.

Lemma length_order_by (leb : A -> A -> bool) (l : list A) :
  List.length (Sql.order_by leb l) = List.length l.
Proof.
  unfold Sql.order_by.
  induction l as [|y l IH]; simpl; [reflexivity|].
  now rewrite length_insert_sorted, IH.
Qed.

Variable key : A -> Z.

(** Under a primary key, a key selects at most the row that has it. *)
Lemma filter_key_absent (k : Z) (l : list A) :
  ~ In k (map key l) -> filter (fun y => key y =? k) l = [].
Proof.
  induction l as [|y l IH]; simpl; intros H; [reflexivity|].
  destruct (Z.eqb_spec (key y) k) as [E|E]; [tauto|].
  apply IH. tauto.
Qed.

Lemma filter_key_unique (x : A) (l : list A) :
  NoDup (map key l) -> In x l -> filter (fun y => key y =? key x) l = [x].
Proof.
  induction l as [|y l IH]; simpl; intros ND Hin; [contradiction|].
  inversion ND as [|? ? Hnot ND']; subst.
  destruct Hin as [->|Hin].
  - rewrite Z.eqb_refl. f_equal. now apply filter_key_absent.
  - destruct (Z.eqb_spec (key y) (key x)) as [E|E].
    + exfalso. apply Hnot. rewrite E. now apply in_map.
    + now apply IH.
Qed.

Lemma NoDup_map_filter (p : A -> bool) (l : list A) :
  NoDup (map key l) -> NoDup (map key (filter p l)).
Proof.
  induction l as [|y l IH]; simpl; intros ND; [constructor|].
  inversion ND as [|? ? Hnot ND']; subst.
  destruct (p y); simpl; [constructor|]; auto.
  intros Hin. apply Hnot.
  apply in_map_iff in Hin as (z & Hz & Hin).
  apply filter_In in Hin as [Hin _].
  rewrite <- Hz. now apply in_map.
Qed.

End Lists.

(** ** Values as JavaScript and the store read them *)

Example trim_strips_both_ends : Js.trim "  New Delhi  " = "New Delhi".
Proof. reflexivity. Qed.

Example number_of_strings :
  Sql.number "12" = 12 /\ Sql.number "12abc" = 12 /\ Sql.number "my-events" = 0.
Proof. repeat split; reflexivity. Qed.

Example datetime_of_form_value :
  Sql.datetime_of_string "2024-05-01T10:30" = Some (Sql.mk_datetime 20240501 103000)
  /\ Sql.date_of_literal "2024-05-01" = Some 20240501
  /\ Sql.date_of_literal "soon" = None.
Proof. repeat split; reflexivity. Qed.

Example like_ignores_case :
  Sql.like "%deL%" "New Delhi" = true /\ Sql.like "%goa%" "New Delhi" = false.
Proof. split; reflexivity. Qed.

Example string_zero_is_truthy :
  Js.or (Js.Str "0") (Js.Num 100) = Js.Str "0" /\ Js.or (Js.Num 0) (Js.Num 100) = Js.Num 100
  /\ Js.or (Js.Str "") (Js.Num 100) = Js.Num 100.
Proof. repeat split; reflexivity. Qed.

Example trim_strips_no_break_space :
  Js.trim (Js.bytes [194; 160; 71; 111; 97; 226; 128; 137; 32]%nat) = "Goa"
  /\ Js.nonblank (Js.bytes [194; 160]%nat) = false
  /\ Js.nonblank (Js.bytes [32; 227; 128; 128; 9]%nat) = false.
Proof. repeat split; reflexivity. Qed.

Lemma strip_prefix_inv w : forall s r,
  Js.strip_prefix w s = Some r -> s = (w ++ r)%string.
Proof.
  induction w as [|a w IH]; simpl; intros s r H.
  - now injection H as ->.
  - destruct s as [|b s]; [discriminate|].
    destruct (Ascii.eqb_spec a b) as [->|_]; [|discriminate].
    now rewrite (IH s r H).
Qed.

Lemma first_stripped_inv ws : forall s r,
  Js.first_stripped ws s = Some r -> exists w, In w ws /\ s = (w ++ r)%string.
Proof.
  induction ws as [|w ws IH]; simpl; intros s r H; [discriminate|].
  destruct (Js.strip_prefix w s) as [r'|] eqn:E.
  - injection H as ->. exists w. split; [now left | now apply strip_prefix_inv].
  - destruct (IH s r H) as (w' & Hin & Hs). eauto.
Qed.

(** No white space character is the start of another: a string that
    starts with one is stripped of exactly that one. *)
Lemma space_prefix_of_space w r :
  In w Js.white_space -> Js.space_prefix (w ++ r) = Some r.
Proof.
  intros H. unfold Js.white_space in H. cbn [map] in H.
  repeat (destruct H as [<-|H]; [reflexivity|]). contradiction.
Qed.

Lemma white_space_not_empty w : In w Js.white_space -> w <> "".
Proof.
  intros H. unfold Js.white_space in H. cbn [map] in H.
  repeat (destruct H as [<-|H]; [discriminate|]). contradiction.
Qed.

Lemma length_append_space w r :
  w <> "" -> (String.length r < String.length (w ++ r))%nat.
Proof.
  destruct w as [|a w]; [contradiction|]. intros _. simpl.
  induction w as [|b w IH]; simpl; lia.
Qed.

Lemma space_prefix_inv s r :
  Js.space_prefix s = Some r ->
  exists w, In w Js.white_space /\ s = (w ++ r)%string
            /\ (String.length r < String.length s)%nat.
Proof.
  intros H. apply first_stripped_inv in H as (w & Hin & ->).
  exists w. repeat split; trivial.
  apply length_append_space. now apply white_space_not_empty.
Qed.

Lemma blank_cons w r : In w Js.white_space -> blank r -> blank (w ++ r).
Proof.
  intros Hw (spaces & Hall & ->). exists (w :: spaces). split; [now constructor|].
  reflexivity.
Qed.

Lemma blank_inv s :
  blank s ->
  s = "" \/ exists w r, In w Js.white_space /\ s = (w ++ r)%string /\ blank r.
Proof.
  intros ([|w spaces] & Hall & ->); [now left|]. right.
  inversion Hall as [|? ? Hw Hrest]; subst.
  exists w, (fold_right String.append "" spaces). repeat split; trivial.
  now exists spaces.
Qed.

Lemma space_prefix_blank s r :
  Js.space_prefix s = Some r -> (blank s <-> blank r).
Proof.
  intros H. destruct (space_prefix_inv s r H) as (w & Hw & -> & _). split.
  - intros Hb. apply blank_inv in Hb as [E | (w' & r' & Hw' & E & Hb)].
    + now apply white_space_not_empty in Hw; destruct w.
    + rewrite E, (space_prefix_of_space w' r' Hw') in H. now injection H as <-.
  - now apply blank_cons.
Qed.

Lemma no_space_prefix_blank s :
  Js.space_prefix s = None -> (blank s <-> s = "").
Proof.
  intros H. split.
  - intros Hb. apply blank_inv in Hb as [E | (w & r & Hw & E & _)]; trivial.
    rewrite E, (space_prefix_of_space w r Hw) in H. discriminate.
  - intros ->. exists []. split; [constructor | reflexivity].
Qed.

Lemma trim_start_from_empty fuel : forall s,
  (String.length s <= fuel)%nat ->
  (Js.trim_start_from fuel s = "" <-> blank s).
Proof.
  induction fuel as [|fuel IH]; intros s Hlen; cbn [Js.trim_start_from].
  - destruct s; [|simpl in Hlen; lia]. split; trivial.
    intros _. exists []. split; [constructor | reflexivity].
  - destruct (Js.space_prefix s) as [r|] eqn:E.
    + rewrite (space_prefix_blank s r E). apply IH.
      apply space_prefix_inv in E as (_ & _ & _ & Hlt). lia.
    + now rewrite (no_space_prefix_blank s E).
Qed.

Lemma trim_start_from_blank fuel : forall s,
  (String.length s <= fuel)%nat ->
  (blank (Js.trim_start_from fuel s) <-> blank s).
Proof.
  induction fuel as [|fuel IH]; intros s Hlen; cbn [Js.trim_start_from]; [tauto|].
  destruct (Js.space_prefix s) as [r|] eqn:E; [|tauto].
  rewrite (space_prefix_blank s r E). apply IH.
  apply space_prefix_inv in E as (_ & _ & _ & Hlt). lia.
Qed.

Lemma trim_start_empty s : Js.trim_start s = "" <-> blank s.
Proof. apply trim_start_from_empty. lia. Qed.

Lemma trim_end_empty s : Js.trim_end s = "" <-> blank s.
Proof.
  destruct s as [|c r]; cbn [Js.trim_end].
  - split; trivial. intros _. exists []. split; [constructor | reflexivity].
  - rewrite <- trim_start_empty.
    destruct (String.eqb_spec (Js.trim_start (String c r)) "") as [E|E].
    + tauto.
    + split; [discriminate | contradiction].
Qed.

Lemma trim_empty s : Js.trim s = "" <-> blank s.
Proof.
  unfold Js.trim. rewrite trim_end_empty. apply trim_start_from_blank. lia.
Qed.

(** X24.  The test of the handler, [x && x.trim() !== ""], fails exactly
    on the strings made of white space characters only, the empty
    string among them; white space is what [trim] strips: the blanks of
    ASCII and also the no-break space, the Unicode spaces, the line and
    paragraph separators and the byte order mark. *)
Lemma nonblank_iff s : Js.nonblank s = false <-> blank s.
Proof.
  unfold Js.nonblank. cbn [Js.truthy].
  rewrite andb_false_iff, !negb_false_iff, !String.eqb_eq, trim_empty.
  split; [|tauto]. intros [->|H]; trivial.
  exists []. split; [constructor | reflexivity].
Qed.

(** ** The listing statement *)

Lemma add_to_groups_fresh r (acc : list Stmt.group) :
  ~ In (Events.event_id (fst r)) (map group_id acc) ->
  Stmt.add_to_groups r acc = acc ++ [(fst r, [snd r])].
Proof.
  induction acc as [|[e ms] acc IH]; simpl; intros H; [reflexivity|].
  unfold group_id in H at 1. simpl in H.
  destruct (Z.eqb_spec (Events.event_id e) (Events.event_id (fst r))) as [E|E].
  - tauto.
  - rewrite IH by tauto. reflexivity.
Qed.

Lemma add_to_groups_last e m l (acc : list Stmt.group) :
  ~ In (Events.event_id e) (map group_id acc) ->
  Stmt.add_to_groups (e, m) (acc ++ [(e, l)]) = acc ++ [(e, l ++ [m])].
Proof.
  induction acc as [|[e' ms] acc IH]; simpl; intros H.
  - now rewrite Z.eqb_refl.
  - unfold group_id in H at 1. simpl in H.
    destruct (Z.eqb_spec (Events.event_id e') (Events.event_id e)) as [E|E].
    + tauto.
    + rewrite IH by tauto. reflexivity.
Qed.

Lemma group_rows_of_one_event e ms l (acc : list Stmt.group) :
  ~ In (Events.event_id e) (map group_id acc) ->
  fold_left (fun gs r => Stmt.add_to_groups r gs) (map (pair e) ms) (acc ++ [(e, l)])
  = acc ++ [(e, l ++ ms)].
Proof.
  intros H. revert l.
  induction ms as [|m ms IH]; simpl; intros l.
  - now rewrite app_nil_r.
  - rewrite add_to_groups_last by assumption.
    rewrite IH. now rewrite <- app_assoc.
Qed.

Lemma matches_or_null_cons e bs :
  exists m ms, Stmt.matches_or_null e bs = m :: ms.
Proof.
  unfold Stmt.matches_or_null.
  destruct (filter _ bs) as [|b l]; simpl; eauto.
Qed.

Lemma group_left_join bs es : forall acc : list Stmt.group,
  NoDup (map Events.event_id es) ->
  (forall e, In e es -> ~ In (Events.event_id e) (map group_id acc)) ->
  fold_left (fun gs r => Stmt.add_to_groups r gs) (Stmt.left_join es bs) acc
  = acc ++ map (fun e => (e, Stmt.matches_or_null e bs)) es.
Proof.
  induction es as [|e es IH]; simpl; intros acc ND Hacc.
  - now rewrite app_nil_r.
  - inversion ND as [|? ? Hnot ND']; subst.
    rewrite fold_left_app.
    destruct (matches_or_null_cons e bs) as (m & ms & E). rewrite E.
    cbn [map fold_left].
    rewrite add_to_groups_fresh by (apply Hacc; now left).
    cbn [fst snd].
    rewrite group_rows_of_one_event by (apply Hacc; now left).
    rewrite IH; trivial.
    + rewrite <- app_assoc. reflexivity.
    + intros x Hx. rewrite map_app, in_app_iff. cbn.
      intros [Hin|[Heq|[]]].
      * apply (Hacc x); [now right | exact Hin].
      * apply Hnot. unfold group_id in Heq. cbn in Heq. rewrite Heq. now apply in_map.
Qed.

Lemma filter_left_join (p : Events.row -> bool) bs es :
  filter (fun r => p (fst r)) (Stmt.left_join es bs)
  = Stmt.left_join (filter p es) bs.
Proof.
  unfold Stmt.left_join.
  induction es as [|e es IH]; simpl; [reflexivity|].
  rewrite filter_app, IH.
  destruct (p e) eqn:Pe; simpl.
  - f_equal. apply forallb_filter_id. apply forallb_forall.
    intros x Hx. apply in_map_iff in Hx as (m & <- & _). exact Pe.
  - replace (filter _ (map (pair e) _)) with (@nil (Events.row * option Bookings.row)); trivial.
    symmetry.
    induction (Stmt.matches_or_null e bs) as [|m l IHl]; simpl; [reflexivity|].
    now rewrite Pe.
Qed.

Lemma count_matches_or_null db e :
  Stmt.count_booking_id (Stmt.matches_or_null e (bookings db)) = booked db e.
Proof.
  unfold Stmt.count_booking_id, Stmt.matches_or_null, booked, bookings_of.
  rewrite (filter_ext (fun b => Bookings.event_id b =? Events.event_id e)
                      (fun b => Events.event_id e =? Bookings.event_id b))
    by (intros b; apply Z.eqb_sym).
  destruct (filter _ (bookings db)) as [|b l] eqn:E; [reflexivity|].
  f_equal. rewrite <- E. clear E.
  induction (filter _ (bookings db)) as [|x xs IH]; simpl; [reflexivity|].
  now rewrite IH.
Qed.

(** Under the primary key the listing statement yields, for each event
    the clauses keep, the event with its capacity less its bookings. *)
Lemma select_events_with_seats_keyed clauses db :
  events_keyed db ->
  Stmt.select_events_with_seats clauses db
  = Sql.order_by Stmt.by_date_asc
      (map (listed db) (filter (Stmt.where_all clauses) (events db))).
Proof.
  intros K. unfold Stmt.select_events_with_seats, Stmt.group_by_event_id.
  rewrite filter_left_join.
  rewrite group_left_join; [| now apply NoDup_map_filter | intros; cbn; tauto].
  cbn [app]. rewrite map_map. f_equal.
  apply map_ext. intros e.
  unfold Stmt.seats_row, listed. cbn [fst snd].
  now rewrite count_matches_or_null.
Qed.

(** ** Running statements and routing requests *)

Lemma db_query_through {A} (stmt : Db -> A * Db) db plan :
  lets_through 1 plan = true ->
  db_query stmt db plan = (Done (fst (stmt db)), snd (stmt db), tl plan).
Proof.
  destruct plan as [|[msg|] rest]; simpl; intros H;
    try discriminate; now destruct (stmt db).
Qed.

Lemma db_query_thrown {A} (stmt : Db -> A * Db) db msg plan :
  db_query stmt db (Some msg :: plan) = (Threw msg, db, plan).
Proof. reflexivity. Qed.

Lemma lets_through_tl n plan :
  lets_through (S n) plan = true -> lets_through n (tl plan) = true.
Proof.
  destruct plan as [|[msg|] rest]; simpl; intros H; trivial; try discriminate.
  now destruct n.
Qed.

Lemma lets_through_first n plan :
  lets_through (S n) plan = true -> lets_through 1 plan = true.
Proof. destruct plan as [|[msg|] rest]; simpl; intros H; trivial. Qed.

Lemma strip_slash_one id : id <> "" -> strip_slash [id] = [id].
Proof. intros H. apply String.eqb_neq in H. cbn [strip_slash]. now rewrite H. Qed.

Lemma route_listing req :
  req_method req = GET -> req_path req = [] ->
  handle req = Some (get_events req).
Proof.
  unfold handle, router. cbn -[String.eqb eqb_ci strip_slash]. intros -> ->.
  reflexivity.
Qed.

(** Any one-segment GET goes to the single-event handler. *)
Lemma route_single_event req id :
  req_method req = GET -> req_path req = [id] -> id <> "" ->
  handle req = Some (get_event id req).
Proof.
  unfold handle, router. cbn -[String.eqb eqb_ci strip_slash]. intros -> -> Hid.
  rewrite (strip_slash_one id Hid).
  apply String.eqb_neq in Hid. cbn -[String.eqb eqb_ci]. rewrite Hid. reflexivity.
Qed.

Lemma route_attendees req id :
  req_method req = GET -> req_path req = [id; "attendees"] -> id <> "" ->
  handle req = Some (get_attendees id req).
Proof.
  unfold handle, router. cbn -[String.eqb eqb_ci strip_slash]. intros -> -> Hid.
  change (strip_slash [id; "attendees"]) with [id; "attendees"].
  apply String.eqb_neq in Hid. cbn -[String.eqb eqb_ci]. rewrite Hid.
  destruct (eqb_ci "my-events" id); reflexivity.
Qed.

Lemma route_create req :
  req_method req = POST -> req_path req = [] ->
  handle req = Some (post_event req).
Proof.
  unfold handle, router. cbn -[String.eqb eqb_ci strip_slash]. intros -> ->.
  reflexivity.
Qed.

Lemma route_delete req id :
  req_method req = DELETE -> req_path req = [id] -> id <> "" ->
  handle req = Some (delete_event id req).
Proof.
  unfold handle, router. cbn -[String.eqb eqb_ci strip_slash]. intros -> -> Hid.
  rewrite (strip_slash_one id Hid).
  apply String.eqb_neq in Hid. cbn -[String.eqb eqb_ci]. rewrite Hid. reflexivity.
Qed.

Lemma optional_clause_absent x clause :
  filter_absent x -> clause_of x clause = [].
Proof. destruct x as [|s| |]; simpl; intros H; trivial. now rewrite H. Qed.

Lemma absent_has_trim x : filter_absent x -> Js.has_trim x = true.
Proof. destruct x; simpl; trivial; contradiction. Qed.

Lemma absent_filters_have_trim req :
  filter_absent (query_location req) -> filter_absent (query_date req) ->
  filters_have_trim req = true.
Proof.
  intros H1 H2. unfold filters_have_trim.
  now rewrite (absent_has_trim _ H1), (absent_has_trim _ H2).
Qed.

Lemma optional_clause_runs x clause db plan :
  Js.has_trim x = true ->
  optional_clause x clause db plan = (Done (clause_of x clause), db, plan).
Proof.
  destruct x as [|s| |]; simpl; intros H; try discriminate; trivial.
  now destruct (Js.nonblank s).
Qed.

(** A filter that is an array or an object makes the handler throw
    before any statement is sent. *)
Lemma get_events_thrown req db plan :
  filters_have_trim req = false ->
  get_events req db plan = (json 500 (Error "Failed to fetch events"), db).
Proof.
  unfold filters_have_trim, get_events, try_catch, bind. intros H.
  destruct (query_location req) as [|l| |]; try reflexivity;
    cbn [Js.has_trim andb] in H;
    destruct (query_date req) as [|d| |]; try discriminate; cbn [optional_clause];
    try reflexivity;
    destruct (Js.nonblank l); reflexivity.
Qed.

Lemma get_events_through req db plan :
  lets_through 1 plan = true ->
  filters_have_trim req = true ->
  get_events req db plan
  = (json 200 (Rows (Stmt.select_events_with_seats (listing_clauses req) db)), db).
Proof.
  intros H Htrim. unfold filters_have_trim in Htrim.
  apply andb_true_iff in Htrim as [Hl Hd].
  unfold get_events, try_catch, bind.
  rewrite (optional_clause_runs _ _ db plan Hl), (optional_clause_runs _ _ db plan Hd).
  fold (listing_clauses req).
  rewrite db_query_through by assumption. reflexivity.
Qed.

(** ** The listing and its seat count *)

(** C1.  GET /events without filters, on a store whose events have
    distinct ids and while the store answers: the listing is made of the
    events of the store, each one shown with
    [available_seats = capacity - (number of booking rows of the event)]
    in place of the stored field.  An event without bookings is listed
    with [available_seats = capacity]; an event with more bookings than
    seats is listed with that negative difference. *)
Theorem listing_available_seats (req : request) (db : Db) (plan : fault_plan) :
  req_method req = GET -> req_path req = [] ->
  filter_absent (query_location req) -> filter_absent (query_date req) ->
  events_keyed db ->
  lets_through 1 plan = true ->
  exists rows,
    answers req db plan = Some (json 200 (Rows rows), db)
    /\ (forall r, In r rows <-> exists e, In e (events db) /\ r = listed db e)
    /\ List.length rows = List.length (events db)
    /\ (forall e, In e (events db) ->
          Events.available_seats (listed db e) = Events.capacity e - booked db e)
    /\ (forall e, In e (events db) -> booked db e = 0 ->
          In (Events.with_available_seats e (Events.capacity e)) rows)
    /\ (forall e, In e (events db) -> Events.capacity e < booked db e ->
          exists r, In r rows /\ r = listed db e /\ Events.available_seats r < 0).
Proof.
  intros Hm Hp Hloc Hdate K Hplan.
  exists (Sql.order_by Stmt.by_date_asc (map (listed db) (events db))).
  assert (Hin : forall r, In r (Sql.order_by Stmt.by_date_asc (map (listed db) (events db)))
                          <-> exists e, In e (events db) /\ r = listed db e).
  { intros r. rewrite in_order_by, in_map_iff.
    split; intros (e & H1 & H2); exists e; auto. }
  split; [|split; [exact Hin|split; [|split; [|split]]]].
  - unfold answers. rewrite (route_listing req Hm Hp). cbn [option_map].
    rewrite get_events_through by (trivial; now apply absent_filters_have_trim).
    rewrite select_events_with_seats_keyed by assumption.
    unfold listing_clauses.
    rewrite !optional_clause_absent by assumption. cbn [app].
    replace (filter (Stmt.where_all []) (events db)) with (events db); trivial.
    symmetry. apply forallb_filter_id. apply forallb_forall. reflexivity.
  - now rewrite length_order_by, length_map.
  - reflexivity.
  - intros e He H0. apply Hin. exists e. split; trivial.
    unfold listed. rewrite H0. f_equal. lia.
  - intros e He Hover. exists (listed db e). split; [apply Hin; eauto|].
    split; [reflexivity|]. unfold listed. cbn. lia.
Qed.

Lemma listing_available_seats_witness :
  exists rows,
    answers (Sample.request GET [] NoToken) Sample.db [] = Some (json 200 (Rows rows), Sample.db)
    /\ (forall r, In r rows <-> exists e, In e (events Sample.db) /\ r = listed Sample.db e)
    /\ List.length rows = List.length (events Sample.db)
    /\ (forall e, In e (events Sample.db) ->
          Events.available_seats (listed Sample.db e) = Events.capacity e - booked Sample.db e)
    /\ (forall e, In e (events Sample.db) -> booked Sample.db e = 0 ->
          In (Events.with_available_seats e (Events.capacity e)) rows)
    /\ (forall e, In e (events Sample.db) -> Events.capacity e < booked Sample.db e ->
          exists r, In r rows /\ r = listed Sample.db e /\ Events.available_seats r < 0).
Proof.
  apply (listing_available_seats (Sample.request GET [] NoToken) Sample.db []);
    try reflexivity; try exact I.
  unfold events_keyed. simpl.
  repeat constructor; simpl; intuition discriminate.
Defined.

Example listing_of_sample :
  option_map (fun a => match body (fst a) with
                       | Rows rows => map (fun r => (Events.event_id r, Events.available_seats r)) rows
                       | _ => []
                       end)
    (answers (Sample.request GET [] NoToken) Sample.db [])
  = Some [(2, -1); (3, 5); (1, 47)].
Proof. reflexivity. Qed.




(** Events 3 (midnight) and 1 (six in the evening) are both of 2 May. *)
Example date_filter_of_sample :
  option_map (fun a => match body (fst a) with
                       | Rows rows => map Events.event_id rows
                       | _ => []
                       end)
    (answers (mk_request GET [] (Some "   ") (Some "2024-05-02") NoToken
                         Sample.no_fields None "https" "events.example.org")
             Sample.db [])
  = Some [3; 1].
Proof. reflexivity. Qed.

(** ** The attendee roster *)

Lemma filter_none {A} (p : A -> bool) (l : list A) :
  (forall x, In x l -> p x = false) -> filter p l = [].
Proof.
  induction l as [|x l IH]; simpl; intros H; [reflexivity|].
  rewrite (H x) by now left. apply IH. intros y Hy. apply H. now right.
Qed.

Lemma filter_both {A} (p q : A -> bool) (l : list A) :
  filter (fun x => p x && q x) l = filter q (filter p l).
Proof.
  induction l as [|x l IH]; simpl; [reflexivity|].
  destruct (p x); simpl; [destruct (q x)|]; now rewrite IH.
Qed.

Lemma get_attendees_thrown id req user db msg plan :
  authorization req = Token user ->
  get_attendees id req db (Some msg :: plan)
  = (json 500 (Error "Server error fetching attendees"), db).
Proof. intros H. unfold get_attendees, authenticateToken. now rewrite H. Qed.

Lemma get_attendees_forbidden id req user db plan :
  authorization req = Token user ->
  not_owner db user id ->
  lets_through 1 plan = true ->
  get_attendees id req db plan
  = (json 403 (Error "Unauthorized or Event not found"), db).
Proof.
  intros H Hno Hplan. unfold get_attendees, authenticateToken. rewrite H.
  unfold try_catch, bind. rewrite db_query_through by assumption.
  unfold Stmt.reading. cbn [fst snd].
  unfold Stmt.select_owned_event.
  rewrite (filter_none (owns user id)) by exact Hno. reflexivity.
Qed.

(** C3.  GET /events/:id/attendees by a caller who does not own the
    event the path names.  Whether the store lacks the event or holds it
    for another organizer, the answer is the same; while the store
    answers it is 403 with the one message "Unauthorized or Event not
    found", and the tables are left as they were. *)
Theorem roster_forbidden_indistinguishable
    (req : request) (user : identity) (id : string) (plan : fault_plan)
    (db_without db_foreign : Db) :
  req_method req = GET -> req_path req = [id; "attendees"] -> id <> "" ->
  authorization req = Token user ->
  not_owner db_without user id ->
  not_owner db_foreign user id ->
  option_map fst (answers req db_without plan)
  = option_map fst (answers req db_foreign plan)
  /\ (lets_through 1 plan = true ->
      answers req db_without plan
      = Some (json 403 (Error "Unauthorized or Event not found"), db_without)
      /\ answers req db_foreign plan
         = Some (json 403 (Error "Unauthorized or Event not found"), db_foreign)).
Proof.
  intros Hm Hp Hid Hauth H1 H2.
  unfold answers. rewrite (route_attendees req id Hm Hp Hid). cbn [option_map].
  split.
  - destruct plan as [|[msg|] rest].
    + now rewrite !(get_attendees_forbidden id req user) by trivial.
    + now rewrite !(get_attendees_thrown id req user) by trivial.
    + now rewrite !(get_attendees_forbidden id req user) by trivial.
  - intros Hplan.
    now rewrite !(get_attendees_forbidden id req user) by trivial.
Qed.

(** The store without event 9, and the store where event 9 is organizer
    8's: organizer 7 gets the same answer from both. *)
Lemma roster_forbidden_indistinguishable_witness :
  option_map fst
    (answers (Sample.request GET ["9"; "attendees"] Sample.organizer7) Sample.db [])
  = option_map fst
      (answers (Sample.request GET ["9"; "attendees"] Sample.organizer7)
               (with_event Sample.db (Sample.event 9 30 8 20240601 0)) [])
  /\ (lets_through 1 [] = true ->
      answers (Sample.request GET ["9"; "attendees"] Sample.organizer7) Sample.db []
      = Some (json 403 (Error "Unauthorized or Event not found"), Sample.db)
      /\ answers (Sample.request GET ["9"; "attendees"] Sample.organizer7)
                 (with_event Sample.db (Sample.event 9 30 8 20240601 0)) []
         = Some (json 403 (Error "Unauthorized or Event not found"),
                 with_event Sample.db (Sample.event 9 30 8 20240601 0))).
Proof.
  apply (roster_forbidden_indistinguishable
           (Sample.request GET ["9"; "attendees"] Sample.organizer7)
           (mk_identity 7 "organizer") "9" []
           Sample.db (with_event Sample.db (Sample.event 9 30 8 20240601 0)));
    try reflexivity; try discriminate.
  - intros e He. simpl in He.
    repeat (destruct He as [<-|He]; [reflexivity|]). contradiction.
  - intros e He. simpl in He.
    repeat (destruct He as [<-|He]; [reflexivity|]). contradiction.
Defined.

Lemma select_owned_event_keyed db user id e :
  events_keyed db -> In e (events db) -> owns user id e = true ->
  Stmt.select_owned_event id (user_id user) db = [e].
Proof.
  intros K He Ho. unfold owns in Ho. apply andb_true_iff in Ho as [Hid Horg].
  unfold Stmt.select_owned_event. rewrite filter_both.
  apply Z.eqb_eq in Hid. rewrite <- Hid.
  rewrite (filter_key_unique Events.event_id e) by assumption.
  simpl. now rewrite Horg.
Qed.

Lemma users_of_booking db b :
  users_keyed db ->
  In (Bookings.user_id b) (map Users.user_id (users db)) ->
  exists u, In u (users db)
            /\ Users.user_id u = Bookings.user_id b
            /\ filter (fun u' => Bookings.user_id b =? Users.user_id u') (users db) = [u].
Proof.
  intros K Hin. apply in_map_iff in Hin as (u & Hu & Hin).
  exists u. repeat split; trivial.
  rewrite (filter_ext _ (fun u' => Users.user_id u' =? Users.user_id u)).
  - now apply filter_key_unique.
  - intros u'. rewrite Hu. apply Z.eqb_sym.
Qed.

(** With each booking referring to one user, the roster statement
    yields one entry per booking of the event, in the order of the
    bookings. *)
Lemma select_attendees_entries db id :
  users_keyed db -> bookings_have_users db ->
  Forall2 (entry_of db) (bookings_of db (Sql.number id)) (Stmt.select_attendees id db).
Proof.
  intros K F. unfold bookings_of, Stmt.select_attendees.
  unfold bookings_have_users in F.
  induction (bookings db) as [|b bs IH]; simpl; [constructor|].
  destruct (users_of_booking db b K) as (u & Hu & Hid & ->); [apply F; now left|].
  rewrite filter_app, map_app. cbn [map filter fst snd app].
  assert (IH' := IH (fun x Hx => F x (or_intror Hx))).
  destruct (Bookings.event_id b =? Sql.number id); cbn [map app]; trivial.
  constructor; trivial.
  unfold entry_of. cbn. repeat split; trivial. exists u. auto.
Qed.

Lemma get_attendees_roster id req user db plan e :
  authorization req = Token user ->
  events_keyed db -> In e (events db) -> owns user id e = true ->
  lets_through 2 plan = true ->
  get_attendees id req db plan
  = (json 200 (Roster e (Stmt.select_attendees id db)
                      (Z.of_nat (List.length (Stmt.select_attendees id db))
                       * Events.price e)),
     db).
Proof.
  intros H K He Ho Hplan. unfold get_attendees, authenticateToken. rewrite H.
  unfold try_catch, bind.
  rewrite db_query_through by (now apply lets_through_first in Hplan).
  unfold Stmt.reading. cbn [fst snd].
  rewrite (select_owned_event_keyed db user id e) by assumption.
  rewrite db_query_through by (now apply lets_through_tl in Hplan).
  reflexivity.
Qed.

(** C8.  GET /events/:id/attendees by the organizer of the event, on a
    store that keeps its keys (distinct event ids, distinct user ids,
    every booking referring to a user) and answers both statements: the
    roster has one entry per booking of the event, carrying the name and
    email of the booking's user and the date and status of the booking,
    and [total_revenue] is the number of entries times the price of the
    event. *)
Theorem roster_entries_and_revenue
    (req : request) (user : identity) (id : string) (plan : fault_plan)
    (db : Db) (e : Events.row) :
  req_method req = GET -> req_path req = [id; "attendees"] -> id <> "" ->
  authorization req = Token user ->
  events_keyed db -> users_keyed db -> bookings_have_users db ->
  In e (events db) -> owns user id e = true ->
  lets_through 2 plan = true ->
  exists attendees,
    answers req db plan
    = Some (json 200 (Roster e attendees
                             (Z.of_nat (List.length attendees) * Events.price e)),
            db)
    /\ Forall2 (entry_of db) (bookings_of db (Events.event_id e)) attendees
    /\ List.length attendees = List.length (bookings_of db (Events.event_id e)).
Proof.
  intros Hm Hp Hid Hauth K KU F He Ho Hplan.
  exists (Stmt.select_attendees id db).
  assert (E : Events.event_id e = Sql.number id).
  { unfold owns in Ho. apply andb_true_iff in Ho as [Ho _]. now apply Z.eqb_eq. }
  assert (H2 := select_attendees_entries db id KU F).
  rewrite E. repeat split; trivial.
  - unfold answers. rewrite (route_attendees req id Hm Hp Hid). cbn [option_map].
    now rewrite (get_attendees_roster id req user db plan e).
  - symmetry. eapply Forall2_length. exact H2.
Qed.

Lemma roster_entries_and_revenue_witness :
  exists attendees,
    answers (Sample.request GET ["1"; "attendees"] Sample.organizer7) Sample.db []
    = Some (json 200 (Roster (Sample.event 1 50 7 20240502 180000) attendees
                             (Z.of_nat (List.length attendees)
                              * Events.price (Sample.event 1 50 7 20240502 180000))),
            Sample.db)
    /\ Forall2 (entry_of Sample.db)
               (bookings_of Sample.db (Events.event_id (Sample.event 1 50 7 20240502 180000)))
               attendees
    /\ List.length attendees
       = List.length (bookings_of Sample.db
                        (Events.event_id (Sample.event 1 50 7 20240502 180000))).
Proof.
  apply (roster_entries_and_revenue
           (Sample.request GET ["1"; "attendees"] Sample.organizer7)
           (mk_identity 7 "organizer") "1" [] Sample.db
           (Sample.event 1 50 7 20240502 180000));
    try reflexivity; try discriminate.
  - unfold events_keyed. simpl. repeat constructor; simpl; intuition discriminate.
  - unfold users_keyed. simpl. repeat constructor; simpl; intuition discriminate.
  - intros b Hb. simpl in Hb.
    repeat (destruct Hb as [<-|Hb]; [simpl; tauto|]). contradiction.
  - simpl. tauto.
Defined.

Example roster_of_sample :
  option_map (fun a => match body (fst a) with
                       | Roster _ attendees total => (map name attendees, total)
                       | _ => ([], 0)
                       end)
    (answers (Sample.request GET ["1"; "attendees"] Sample.organizer7) Sample.db [])
  = Some (["Asha"; "Ravi"; "Meena"], 60).
Proof. reflexivity. Qed.

(** ** Bookings count whatever their status *)










Lemma get_events_response req db plan :
  fst (get_events req db plan)
  = if filters_have_trim req && lets_through 1 plan
    then json 200 (Rows (Stmt.select_events_with_seats (listing_clauses req) db))
    else json 500 (Error "Failed to fetch events").
Proof.
  destruct (filters_have_trim req) eqn:Htrim.
  - destruct plan as [|[msg|] rest]; cbn [andb lets_through].
    + now rewrite get_events_through.
    + unfold filters_have_trim in Htrim. apply andb_true_iff in Htrim as [Hl Hd].
      unfold get_events, try_catch, bind.
      now rewrite (optional_clause_runs _ _ db _ Hl), (optional_clause_runs _ _ db _ Hd).
    + now rewrite get_events_through.
  - now rewrite get_events_thrown.
Qed.

Lemma get_attendees_response id req db plan :
  fst (get_attendees id req db plan)
  = match authorization req with
    | NoToken => json 401 (Error "Missing token")
    | BadToken => json 403 (Error "Invalid token")
    | Token user =>
        if lets_through 1 plan
        then match Stmt.select_owned_event id (user_id user) db with
             | [] => json 403 (Error "Unauthorized or Event not found")
             | e :: _ =>
                 if lets_through 2 plan
                 then json 200
                        (Roster e (Stmt.select_attendees id db)
                                (Z.of_nat (List.length (Stmt.select_attendees id db))
                                 * Events.price e))
                 else json 500 (Error "Server error fetching attendees")
             end
        else json 500 (Error "Server error fetching attendees")
    end.
Proof.
  unfold get_attendees, authenticateToken.
  destruct (authorization req) as [| |user]; try reflexivity.
  unfold try_catch, bind, Stmt.reading.
  destruct plan as [|[msg|] rest]; cbn [db_query lets_through fst snd];
    try reflexivity.
  - destruct (Stmt.select_owned_event id (user_id user) db); reflexivity.
  - destruct (Stmt.select_owned_event id (user_id user) db); [reflexivity|].
    destruct rest as [|[msg|] rest]; reflexivity.
Qed.



(** With every booking cancelled, event 1 still shows 47 seats and
    its roster still adds up to three times the price. *)
Example cancelled_bookings_still_count :
  option_map (fun a => match body (fst a) with
                       | Rows rows => map (fun r => (Events.event_id r, Events.available_seats r)) rows
                       | _ => []
                       end)
    (answers (Sample.request GET [] NoToken)
             (with_bookings Sample.db Sample.all_cancelled) [])
  = Some [(2, -1); (3, 5); (1, 47)]
  /\ option_map (fun a => match body (fst a) with
                          | Roster _ attendees total => (map status attendees, total)
                          | _ => ([], 0)
                          end)
       (answers (Sample.request GET ["1"; "attendees"] Sample.organizer7)
                (with_bookings Sample.db Sample.all_cancelled) [])
     = Some (["cancelled"; "cancelled"; "cancelled"], 60).
Proof. split; reflexivity. Qed.

(** ** Creating an event *)

Lemma bind_ret {A B} (a : A) (k : A -> M B) : bind (ret a) k = k a.
Proof. reflexivity. Qed.

(** A request whose title is truthy has a body. *)
Lemma titled_has_body req :
  Js.truthy (Body.title (req_body req)) = true ->
  body_sent req = Some (req_body req).
Proof. unfold req_body. destruct (body_sent req); [reflexivity | discriminate]. Qed.

(** With a form in the body, the check of the handler answers: a form
    whose title or date is missing (or is any other falsy value) gets
    400 "Title and Date are required", no statement is sent, and the
    tables are as they were. *)
Lemma create_with_form_requires_title_and_date
    (req : request) (user : identity) (form : Body.fields) (db : Db)
    (plan : fault_plan) :
  req_method req = POST -> req_path req = [] ->
  authorization req = Token user ->
  body_sent req = Some form ->
  Js.truthy (Body.title form) = false \/ Js.truthy (Body.date form) = false ->
  answers req db plan = Some (json 400 (Error "Title and Date are required"), db).
Proof.
  intros Hm Hp Hauth Hbody Hmissing.
  unfold answers. rewrite (route_create req Hm Hp). cbn [option_map].
  unfold post_event, authenticateToken. rewrite Hauth, Hbody, bind_ret.
  destruct Hmissing as [-> | ->]; [reflexivity|].
  now rewrite orb_true_r.
Qed.

Example create_without_title_of_sample :
  answers (Sample.request POST [] Sample.organizer7) Sample.db []
  = Some (json 400 (Error "Title and Date are required"), Sample.db).
Proof. reflexivity. Qed.

(** C4.  POST /events by a caller who passed the token check, with no
    body at all ([req.body] undefined: nothing parsed one): the request
    is missing its title and its date, yet the answer is not 400.
    Destructuring [req.body] throws before the check of the two fields,
    and the answer is 500 "Server error creating event"; the tables are
    as they were. *)
Theorem create_without_body_is_internal_error
    (location date : Js.query) (user : identity) (file : option string)
    (proto hostname : string) (db : Db) (plan : fault_plan) :
  answers (make_request POST [] location date (Token user) None file proto hostname)
          db plan
  = Some (json 500 (Error "Server error creating event"), db)
  /\ answers (make_request POST [] location date (Token user) None file proto hostname)
             db plan
     <> Some (json 400 (Error "Title and Date are required"), db).
Proof. split; [reflexivity | discriminate]. Qed.

(** C6.  POST /events with a title and a date, by a caller who passed
    the token check, while the store answers: one row is added and the
    answer is 201 with its id.  The row stores capacity 100 when the
    form's capacity is missing or falsy, mode "physical" when its mode is,
    price 0 when its price is, and its [available_seats] is its
    capacity. *)
Theorem create_defaults
    (req : request) (user : identity) (db : Db) (plan : fault_plan) :
  req_method req = POST -> req_path req = [] ->
  authorization req = Token user ->
  Js.truthy (Body.title (req_body req)) = true ->
  Js.truthy (Body.date (req_body req)) = true ->
  lets_through 1 plan = true ->
  exists row,
    answers req db plan
    = Some (json 201 (Created "✅ Event created successfully" (next_event_id db)),
            mk_db (events db ++ [row]) (bookings db) (users db) (next_event_id db + 1))
    /\ Events.event_id row = next_event_id db
    /\ Events.organizer_id row = user_id user
    /\ (Js.truthy (Body.capacity (req_body req)) = false -> Events.capacity row = 100)
    /\ (Js.truthy (Body.capacity (req_body req)) = true ->
        Events.capacity row = Sql.int (Body.capacity (req_body req)))
    /\ (Js.truthy (Body.mode (req_body req)) = false -> Events.mode row = "physical")
    /\ (Js.truthy (Body.price (req_body req)) = false -> Events.price row = 0)
    /\ Events.available_seats row = Events.capacity row.
Proof.
  intros Hm Hp Hauth Ht Hd Hplan.
  unfold answers. rewrite (route_create req Hm Hp). cbn [option_map].
  unfold post_event, authenticateToken.
  rewrite Hauth, (titled_has_body req Ht), bind_ret, Ht, Hd.
  cbn [negb orb]. unfold try_catch, bind.
  rewrite db_query_through by assumption.
  unfold Stmt.insert_event. cbn [fst snd].
  eexists. split; [reflexivity|].
  cbn [Events.event_id Events.organizer_id Events.capacity Events.mode
       Events.price Events.available_seats Sql.int].
  unfold Js.or.
  repeat split; trivial; intros H; rewrite H; reflexivity.
Qed.

Lemma create_defaults_witness :
  exists row,
    answers (mk_request POST [] None None Sample.organizer7 Sample.title_and_date
                        None "https" "events.example.org") Sample.db []
    = Some (json 201 (Created "✅ Event created successfully" (next_event_id Sample.db)),
            mk_db (events Sample.db ++ [row]) (bookings Sample.db) (users Sample.db)
                  (next_event_id Sample.db + 1))
    /\ Events.event_id row = next_event_id Sample.db
    /\ Events.organizer_id row = user_id (mk_identity 7 "organizer")
    /\ (Js.truthy (Body.capacity Sample.title_and_date) = false -> Events.capacity row = 100)
    /\ (Js.truthy (Body.capacity Sample.title_and_date) = true ->
        Events.capacity row = Sql.int (Body.capacity Sample.title_and_date))
    /\ (Js.truthy (Body.mode Sample.title_and_date) = false -> Events.mode row = "physical")
    /\ (Js.truthy (Body.price Sample.title_and_date) = false -> Events.price row = 0)
    /\ Events.available_seats row = Events.capacity row.
Proof.
  apply (create_defaults
           (mk_request POST [] None None Sample.organizer7 Sample.title_and_date
                       None "https" "events.example.org")
           (mk_identity 7 "organizer") Sample.db []); reflexivity.
Defined.

Example created_row_of_sample :
  option_map (fun a => map (fun e => (Events.event_id e, Events.capacity e,
                                      Events.available_seats e, Events.price e,
                                      Events.mode e, Events.date e))
                           (skipn 3 (events (snd a))))
    (answers (mk_request POST [] None None Sample.organizer7 Sample.title_and_date
                         None "https" "events.example.org") Sample.db [])
  = Some [(4, 100, 100, 0, "physical", Sql.mk_datetime 20240601 183000)].
Proof. reflexivity. Qed.

(** ** Deleting an event *)

Lemma filter_all {A} (p : A -> bool) (l : list A) :
  (forall x, In x l -> p x = true) -> filter p l = l.
Proof.
  induction l as [|x l IH]; simpl; intros H; [reflexivity|].
  rewrite (H x) by now left. f_equal. apply IH. intros y Hy. apply H. now right.
Qed.

(** The statement with a condition that selects just [e]. *)
Lemma delete_events_one cond db e :
  filter cond (events db) = [e] ->
  fst (Stmt.delete_events cond db) = 1
  /\ removes_only db (snd (Stmt.delete_events cond db)) e.
Proof.
  intros Hsel. unfold Stmt.delete_events. cbn [fst snd]. rewrite Hsel.
  split; [reflexivity|].
  unfold removes_only. cbn [events bookings users].
  split; [|split; [|split]]; trivial.
  - intros x. rewrite filter_In.
    assert (Hc : forall y, In y (events db) -> (cond y = true <-> y = e)).
    { intros y Hy. split.
      - intros Hcy. assert (Hin : In y (filter cond (events db))) by now apply filter_In.
        rewrite Hsel in Hin. destruct Hin as [<-|[]]. reflexivity.
      - intros ->. assert (Hin : In e (filter cond (events db))) by (rewrite Hsel; now left).
        now apply filter_In in Hin. }
    split.
    + intros [Hx Hn]. split; trivial. intros ->.
      apply negb_true_iff in Hn.
      rewrite (proj2 (Hc e Hx) eq_refl) in Hn. discriminate.
    + intros [Hx Hne]. split; trivial. apply negb_true_iff.
      destruct (cond x) eqn:Hcx; trivial. apply (Hc x Hx) in Hcx. contradiction.
  - rewrite <- (filter_length cond (events db)), Hsel. reflexivity.
Qed.

(** The statement with a condition that selects nothing. *)
Lemma delete_events_none cond db :
  (forall x, In x (events db) -> cond x = false) ->
  Stmt.delete_events cond db = (0, db).
Proof.
  intros Hnone. unfold Stmt.delete_events.
  rewrite (filter_none cond) by assumption.
  rewrite filter_all by (intros x Hx; now rewrite Hnone).
  now destruct db.
Qed.

Lemma delete_event_through id req user db plan :
  authorization req = Token user ->
  lets_through 1 plan = true ->
  delete_event id req db plan
  = let cond e :=
      if (role user =? "admin")%string
      then Events.event_id e =? Sql.number id
      else owns user id e in
    let result := Stmt.delete_events cond db in
    (if fst result =? 0
     then json 404 (Error "Event not found or unauthorized")
     else json 200 (Message "🗑️ Event deleted successfully"),
     snd result).
Proof.
  intros H Hplan. unfold delete_event, authenticateToken. rewrite H.
  unfold try_catch, bind. rewrite db_query_through by assumption.
  cbv zeta. unfold owns.
  destruct (role user =? "admin")%string;
    match goal with |- context [Stmt.delete_events ?c db] =>
      destruct (fst (Stmt.delete_events c db) =? 0); reflexivity end.
Qed.

(** C5.  DELETE /events/:id by a caller who passed the token check, on
    a store whose events have distinct ids and which answers.  When the
    event exists and the caller is its organizer, or has the admin role,
    the answer is 200 and the tables have lost that event and nothing
    else.  When the caller is neither admin nor the organizer of the
    event, or no event has the id, the answer is the one 404 "Event not
    found or unauthorized" and the tables are as they were. *)
Theorem delete_by_owner_or_admin
    (req : request) (user : identity) (id : string) (db : Db) (plan : fault_plan) :
  req_method req = DELETE -> req_path req = [id] -> id <> "" ->
  authorization req = Token user ->
  events_keyed db ->
  lets_through 1 plan = true ->
  (forall e,
      In e (events db) -> Events.event_id e = Sql.number id ->
      Events.organizer_id e = user_id user \/ role user = "admin" ->
      exists db',
        answers req db plan
        = Some (json 200 (Message "🗑️ Event deleted successfully"), db')
        /\ removes_only db db' e)
  /\ ((role user <> "admin" /\ not_owner db user id)
      \/ (forall e, In e (events db) -> Events.event_id e <> Sql.number id) ->
      answers req db plan
      = Some (json 404 (Error "Event not found or unauthorized"), db)).
Proof.
  intros Hm Hp Hid Hauth K Hplan.
  unfold answers. rewrite (route_delete req id Hm Hp Hid). cbn [option_map].
  rewrite (delete_event_through id req user db plan Hauth Hplan). cbv zeta.
  split.
  - intros e He Heid Hwho.
    assert (Hbyid : filter (fun x => Events.event_id x =? Sql.number id) (events db) = [e]).
    { rewrite <- Heid. now apply filter_key_unique. }
    eexists. split; [|apply delete_events_one].
    + match goal with |- context [Stmt.delete_events ?c db] =>
        destruct (delete_events_one c db e) as [-> _]; [|reflexivity] end.
      destruct (role user =? "admin")%string eqn:Hadmin; [exact Hbyid|].
      destruct Hwho as [Horg | Hrole].
      * unfold owns. rewrite filter_both, Hbyid. simpl.
        now rewrite Horg, Z.eqb_refl.
      * apply String.eqb_neq in Hadmin. contradiction.
    + destruct (role user =? "admin")%string eqn:Hadmin; [exact Hbyid|].
      destruct Hwho as [Horg | Hrole].
      * unfold owns. rewrite filter_both, Hbyid. simpl.
        now rewrite Horg, Z.eqb_refl.
      * apply String.eqb_neq in Hadmin. contradiction.
  - intros Hcase. rewrite delete_events_none; [reflexivity|].
    intros x Hx. destruct Hcase as [[Hrole Hno] | Hmissing].
    + apply String.eqb_neq in Hrole. rewrite Hrole. now apply Hno.
    + assert (Hx' : (Events.event_id x =? Sql.number id) = false)
        by (apply Z.eqb_neq; now apply Hmissing).
      unfold owns. rewrite Hx'. now destruct (role user =? "admin")%string.
Qed.

Lemma delete_by_owner_or_admin_witness :
  (forall e,
      In e (events Sample.db) -> Events.event_id e = Sql.number "1" ->
      Events.organizer_id e = user_id (mk_identity 7 "organizer")
      \/ role (mk_identity 7 "organizer") = "admin" ->
      exists db',
        answers (Sample.request DELETE ["1"] Sample.organizer7) Sample.db []
        = Some (json 200 (Message "🗑️ Event deleted successfully"), db')
        /\ removes_only Sample.db db' e)
  /\ ((role (mk_identity 7 "organizer") <> "admin"
       /\ not_owner Sample.db (mk_identity 7 "organizer") "1")
      \/ (forall e, In e (events Sample.db) -> Events.event_id e <> Sql.number "1") ->
      answers (Sample.request DELETE ["1"] Sample.organizer7) Sample.db []
      = Some (json 404 (Error "Event not found or unauthorized"), Sample.db)).
Proof.
  apply (delete_by_owner_or_admin (Sample.request DELETE ["1"] Sample.organizer7)
           (mk_identity 7 "organizer") "1" Sample.db []);
    try reflexivity; try discriminate.
  unfold events_keyed. simpl. repeat constructor; simpl; intuition discriminate.
Defined.

(** Organizer 7 deletes event 1 and cannot delete event 2; an admin can. *)
Example deletions_of_sample :
  option_map (fun a => (code (fst a), map Events.event_id (events (snd a))))
    (answers (Sample.request DELETE ["1"] Sample.organizer7) Sample.db [])
  = Some (200, [2; 3])
  /\ option_map (fun a => (code (fst a), map Events.event_id (events (snd a))))
       (answers (Sample.request DELETE ["2"] Sample.organizer7) Sample.db [])
     = Some (404, [1; 2; 3])
  /\ option_map (fun a => (code (fst a), map Events.event_id (events (snd a))))
       (answers (Sample.request DELETE ["2"] (Token (mk_identity 7 "admin"))) Sample.db [])
     = Some (200, [1; 3])
  /\ option_map (fun a => (code (fst a), map Events.event_id (events (snd a))))
       (answers (Sample.request DELETE ["9"] (Token (mk_identity 7 "admin"))) Sample.db [])
     = Some (404, [1; 2; 3]).
Proof. repeat split; reflexivity. Qed.

(** ** The organizer's own events, and the route that hides them *)

Section Ordered.
Context {A : Type} (leb : A -> A -> bool).
Hypothesis leb_total : forall a b, leb a b = false -> leb b a = true.

Lemma insert_sorted_Sorted x l :
  Sorted (fun a b => leb a b = true) l ->
  Sorted (fun a b => leb a b = true) (Sql.insert_sorted leb x l).
Proof.
  induction 1 as [|y l Hs IH Hhd]; simpl.
  - repeat constructor.
  - destruct (leb x y) eqn:E.
    + constructor; [now constructor | now constructor].
    + constructor; [exact IH|].
      destruct l as [|z l]; simpl.
      * constructor. now apply leb_total.
      * inversion Hhd; subst.
        destruct (leb x z); constructor; trivial. now apply leb_total.
Qed.

Lemma order_by_Sorted l :
  Sorted (fun a b => leb a b = true) (Sql.order_by leb l).
Proof.
  unfold Sql.order_by.
  induction l as [|x l IH]; simpl; [constructor | now apply insert_sorted_Sorted].
Qed.

End Ordered.

Lemma by_date_desc_total a b :
  Stmt.by_date_desc a b = false -> Stmt.by_date_desc b a = true.
Proof.
  unfold Stmt.by_date_desc, Sql.datetime_leb.
  intros H. apply orb_false_iff in H as [H1 H2].
  apply Z.ltb_ge in H1. apply andb_false_iff in H2.
  apply orb_true_iff.
  destruct (Z.eq_dec (Sql.date_part (Events.date a)) (Sql.date_part (Events.date b)))
    as [E|E].
  - right. rewrite E, Z.eqb_refl. simpl.
    destruct H2 as [H2|H2].
    + rewrite E, Z.eqb_refl in H2. discriminate.
    + apply Z.leb_gt in H2. apply Z.leb_le. lia.
  - left. apply Z.ltb_lt. lia.
Qed.

(** X15.  The handler of "/my-events", were a request to reach it: the
    caller's events and no others, latest first, as they are stored. *)
Lemma get_my_events_contract req user db plan :
  authorization req = Token user ->
  lets_through 1 plan = true ->
  exists rows,
    get_my_events req db plan = (json 200 (Rows rows), db)
    /\ (forall e, In e rows <->
                  In e (events db) /\ Events.organizer_id e = user_id user)
    /\ Sorted (fun a b => Stmt.by_date_desc a b = true) rows.
Proof.
  intros Hauth Hplan. exists (Stmt.select_events_of (user_id user) db).
  split; [|split].
  - unfold get_my_events, authenticateToken. rewrite Hauth.
    unfold try_catch, bind. now rewrite db_query_through.
  - intros e. unfold Stmt.select_events_of.
    rewrite in_order_by, filter_In, Z.eqb_eq. reflexivity.
  - apply order_by_Sorted. exact by_date_desc_total.
Qed.

(** C2.  GET /events/my-events never reaches the handler of
    "/my-events": the route "/:id" was added before it and takes the
    request with [id = "my-events"].  The answer is that of the single
    event lookup, which is never a list of events. *)
Theorem my_events_taken_by_single_lookup
    (location date : option string) (who : credential) (form : Body.fields)
    (file : option string) (proto hostname : string) (db : Db) (plan : fault_plan) :
  let req := mk_request GET ["my-events"] location date who form file proto hostname in
  answers req db plan = Some (get_event "my-events" req db plan)
  /\ (forall rows, body (fst (get_event "my-events" req db plan)) <> Rows rows).
Proof.
  cbv zeta. split; [reflexivity|].
  intros rows. unfold get_event, try_catch, bind, Stmt.reading.
  destruct plan as [|[msg|] rest]; cbn [db_query fst snd body];
    try discriminate;
    destruct (Stmt.select_event "my-events" db); discriminate.
Qed.

(** With ids that start at 1, the answer is 404. *)
Lemma my_events_not_found req db plan :
  req_method req = GET -> req_path req = ["my-events"] ->
  (forall e, In e (events db) -> Events.event_id e <> 0) ->
  lets_through 1 plan = true ->
  answers req db plan = Some (json 404 (Error "Event not found"), db).
Proof.
  intros Hm Hp Hpos Hplan. unfold answers.
  rewrite (route_single_event req "my-events" Hm Hp) by discriminate.
  cbn [option_map]. f_equal.
  unfold get_event, try_catch, bind.
  rewrite db_query_through by assumption.
  unfold Stmt.reading, Stmt.select_event. cbn [fst snd].
  rewrite (filter_none _ (events db)); [reflexivity|].
  intros e He. apply Z.eqb_neq. now apply Hpos.
Qed.

(** Organizer 7 owns events 1 and 3 of the sample store; asking for
    them through the router yields 404, while the handler of the route
    would have listed them. *)
Example my_events_of_sample :
  answers (Sample.request GET ["my-events"] Sample.organizer7) Sample.db []
  = Some (json 404 (Error "Event not found"), Sample.db)
  /\ (let (r, _) := get_my_events (Sample.request GET ["my-events"] Sample.organizer7)
                                  Sample.db [] in
      match body r with Rows rows => map Events.event_id rows | _ => [] end)
     = [1; 3].
Proof. split; reflexivity. Qed.

(** ** What a caller sees of a failure of the store *)

(** The handlers of "/", "/:id/attendees" and the creation answer a
    failure of the store with a message of their own. *)
Lemma generic_failure_messages req user db msg plan :
  fst (get_events req db (Some msg :: plan)) = json 500 (Error "Failed to fetch events")
  /\ (authorization req = Token user ->
      forall id,
        fst (get_attendees id req db (Some msg :: plan))
        = json 500 (Error "Server error fetching attendees"))
  /\ (authorization req = Token user ->
      Js.truthy (Body.title (req_body req)) = true ->
      Js.truthy (Body.date (req_body req)) = true ->
      fst (post_event req db (Some msg :: plan))
      = json 500 (Error "Server error creating event")).
Proof.
  split; [|split].
  - rewrite get_events_response. cbn [lets_through]. now rewrite andb_false_r.
  - intros Hauth id. now rewrite (get_attendees_thrown id req user).
  - intros Hauth Ht Hd. unfold post_event, authenticateToken.
    now rewrite Hauth, (titled_has_body req Ht), bind_ret, Ht, Hd.
Qed.

(** C9.  A failure of the store is answered with status 500 by every
    handler, but the handlers of "/:id" (GET and DELETE) put the message
    of the store's error in the answer: whatever the message says of the
    store, the caller reads it. *)
Theorem store_error_message_forwarded (msg : string) (db : Db) (plan : fault_plan) :
  answers (Sample.request GET ["1"] NoToken) db (Some msg :: plan)
  = Some (json 500 (Error msg), db)
  /\ answers (Sample.request DELETE ["1"] Sample.organizer7) db (Some msg :: plan)
     = Some (json 500 (Error msg), db).
Proof. split; reflexivity. Qed.

Example store_error_of_sample :
  answers (Sample.request GET ["1"] NoToken) Sample.db
          [Some "connect ECONNREFUSED 10.0.3.17:3306"]
  = Some (json 500 (Error "connect ECONNREFUSED 10.0.3.17:3306"), Sample.db).
Proof. reflexivity. Qed.

(** ** The routes as a table *)

Lemma dispatch_table req : dispatch router req = routing_table req.
Proof.
  unfold routing_table, router.
  destruct req as [m path loc date who form file proto hostname].
  cbn [req_method req_path].
  destruct m; destruct path as [|x [|y [|z l]]];
    cbn -[String.eqb eqb_ci];
    repeat match goal with
           | |- context [if ?b then _ else _] => destruct b eqn:?
           end;
    try reflexivity; try discriminate;
    repeat match goal with
           | H : (_ =? "")%string = true |- _ => apply String.eqb_eq in H; subst
           end;
    match goal with
    | H : (if ?b then _ else _) = Some _ |- _ =>
        try (destruct b; discriminate); cbn in H; discriminate
    end.
Qed.

Lemma answers_table req db plan :
  answers req db plan = option_map (fun h => h db plan) (routing_table req).
Proof. unfold answers, handle. now rewrite dispatch_table. Qed.

(** X1.  For a GET, POST or DELETE request, trying the six routes in
    the order they were added comes to this table, read on the path
    without the one slash it may end with: [GET /] lists, [GET /:id]
    looks one event up, [GET /:id/attendees] gives the roster, [POST /]
    creates, [DELETE /:id] deletes, and no other path is taken.  The
    handler added for "/my-events" is in no row of the table. *)
Theorem handle_is_routing_table (req : request) :
  handle req = routing_table req.
Proof. exact (dispatch_table req). Qed.

(** A slash at the end goes to the same handler; two do not. *)
Example trailing_slash_of_sample :
  answers (Sample.request GET ["1"; ""] NoToken) Sample.db []
  = answers (Sample.request GET ["1"] NoToken) Sample.db []
  /\ option_map (fun a => code (fst a))
       (answers (Sample.request GET ["1"; "Attendees"; ""] Sample.organizer7)
                Sample.db [])
     = Some 200
  /\ answers (Sample.request GET ["1"; ""; ""] NoToken) Sample.db [] = None.
Proof. repeat split; reflexivity. Qed.

(** ** The token in the header *)

Lemma split_space_word w :
  no_space w = true -> Auth.split_space w = [w].
Proof.
  induction w as [|c r IH]; simpl; intros H; [reflexivity|].
  apply andb_true_iff in H as [Hc Hr]. apply negb_true_iff in Hc.
  rewrite Hc, (IH Hr). reflexivity.
Qed.

Lemma split_space_first w rest :
  no_space w = true ->
  Auth.split_space (w ++ " " ++ rest) = w :: Auth.split_space rest.
Proof.
  induction w as [|c r IH]; simpl; intros H; [reflexivity|].
  apply andb_true_iff in H as [Hc Hr]. apply negb_true_iff in Hc.
  rewrite Hc. simpl in IH. rewrite (IH Hr). reflexivity.
Qed.

Lemma append_not_empty (a b : string) : (a ++ " " ++ b)%string <> "".
Proof. destruct a; discriminate. Qed.

(** X2.  The token the server reads is the second space-separated word
    of the header, whatever the first word is: the scheme is not looked
    at, so "Bearer t", "Token t" and " t" are the same to it.  What the
    request is taken for is then up to [jwt.verify] on that word. *)
Theorem token_is_second_word
    (jwt_verify : string -> option identity) (scheme token : string) :
  no_space scheme = true -> no_space token = true -> token <> "" ->
  Auth.bearer_token (Some (scheme ++ " " ++ token)%string) = Some token
  /\ Auth.credential_of jwt_verify (Some (scheme ++ " " ++ token)%string)
     = match jwt_verify token with
       | Some user => Token user
       | None => BadToken
       end.
Proof.
  intros Hs Ht Hne.
  assert (H : Auth.bearer_token (Some (scheme ++ " " ++ token)%string) = Some token).
  { unfold Auth.bearer_token.
    destruct (String.eqb_spec (scheme ++ " " ++ token) "") as [E|_];
      [now apply append_not_empty in E|].
    rewrite split_space_first, split_space_word by assumption.
    cbn [nth_error]. apply String.eqb_neq in Hne. now rewrite Hne. }
  split; [exact H|]. unfold Auth.credential_of. now rewrite H.
Qed.

Lemma token_is_second_word_witness :
  Auth.bearer_token (Some ("Token" ++ " " ++ "eyJhbGciOi.eyJ1c2VyX2lk.c2ln")%string)
  = Some "eyJhbGciOi.eyJ1c2VyX2lk.c2ln"
  /\ Auth.credential_of sample_verify
       (Some ("Token" ++ " " ++ "eyJhbGciOi.eyJ1c2VyX2lk.c2ln")%string)
     = match sample_verify "eyJhbGciOi.eyJ1c2VyX2lk.c2ln" with
       | Some user => Token user
       | None => BadToken
       end.
Proof.
  apply (token_is_second_word sample_verify "Token" "eyJhbGciOi.eyJ1c2VyX2lk.c2ln");
    [reflexivity | reflexivity | discriminate].
Defined.

(** X3.  Headers that count as no token at all, whatever [jwt.verify]
    would say: no header; a header of one word (a bare token without a
    scheme in front); a scheme with nothing after its space; a scheme
    followed by two spaces, however good the token after them. *)
Theorem header_without_token
    (jwt_verify : string -> option identity) (word rest : string) :
  no_space word = true ->
  Auth.credential_of jwt_verify None = NoToken
  /\ Auth.credential_of jwt_verify (Some word) = NoToken
  /\ Auth.credential_of jwt_verify (Some (word ++ " ")%string) = NoToken
  /\ Auth.credential_of jwt_verify (Some (word ++ " " ++ " " ++ rest)%string) = NoToken.
Proof.
  intros Hw. unfold Auth.credential_of, Auth.bearer_token.
  split; [reflexivity|]. split; [|split].
  - destruct (word =? "")%string; [reflexivity|].
    now rewrite split_space_word.
  - destruct (String.eqb_spec (word ++ " ") "") as [E|_]; [reflexivity|].
    change (word ++ " ")%string with (word ++ " " ++ "")%string.
    now rewrite (split_space_first word "" Hw).
  - destruct (String.eqb_spec (word ++ " " ++ " " ++ rest) "") as [E|_]; [reflexivity|].
    rewrite (split_space_first word (" " ++ rest) Hw).
    change (" " ++ rest)%string with ("" ++ " " ++ rest)%string.
    now rewrite (split_space_first "" rest eq_refl).
Qed.

Lemma header_without_token_witness :
  Auth.credential_of sample_verify None = NoToken
  /\ Auth.credential_of sample_verify (Some "eyJhbGciOi.eyJ1c2VyX2lk.c2ln") = NoToken
  /\ Auth.credential_of sample_verify
       (Some ("eyJhbGciOi.eyJ1c2VyX2lk.c2ln" ++ " ")%string) = NoToken
  /\ Auth.credential_of sample_verify
       (Some ("eyJhbGciOi.eyJ1c2VyX2lk.c2ln" ++ " " ++ " "
              ++ "eyJhbGciOi.eyJ1c2VyX2lk.c2ln")%string) = NoToken.
Proof.
  apply (header_without_token sample_verify "eyJhbGciOi.eyJ1c2VyX2lk.c2ln"
                              "eyJhbGciOi.eyJ1c2VyX2lk.c2ln").
  reflexivity.
Defined.

(** X4.  The front end and the server agree on the token: what the
    interceptor writes for a stored token without spaces is read back by
    the server as that very token, whatever header the request had
    before.  With nothing stored (no entry, or an empty one) the
    interceptor leaves the header alone, and a request that had none is
    taken as carrying no token. *)
Theorem client_token_reaches_server
    (jwt_verify : string -> option identity) (stored : string)
    (previous : option string) :
  no_space stored = true -> stored <> "" ->
  Auth.bearer_token (Client.request_interceptor (Some stored) previous) = Some stored
  /\ Auth.credential_of jwt_verify (Client.request_interceptor (Some stored) previous)
     = match jwt_verify stored with
       | Some user => Token user
       | None => BadToken
       end
  /\ Client.request_interceptor None previous = previous
  /\ Client.request_interceptor (Some "") previous = previous
  /\ Auth.credential_of jwt_verify (Client.request_interceptor None None) = NoToken.
Proof.
  intros Hs Hne.
  assert (H : Auth.bearer_token (Client.request_interceptor (Some stored) previous)
              = Some stored).
  { unfold Client.request_interceptor.
    apply String.eqb_neq in Hne. rewrite Hne.
    change ("Bearer " ++ stored)%string with ("Bearer" ++ " " ++ stored)%string.
    unfold Auth.bearer_token.
    destruct (String.eqb_spec ("Bearer" ++ " " ++ stored) "") as [E|_];
      [discriminate|].
    rewrite (split_space_first "Bearer" stored eq_refl), split_space_word by assumption.
    cbn [nth_error]. now rewrite Hne. }
  split; [exact H|]. split; [|repeat split].
  unfold Auth.credential_of. now rewrite H.
Qed.

Lemma client_token_reaches_server_witness :
  Auth.bearer_token
    (Client.request_interceptor (Some "eyJhbGciOi.eyJ1c2VyX2lk.c2ln") None)
  = Some "eyJhbGciOi.eyJ1c2VyX2lk.c2ln"
  /\ Auth.credential_of sample_verify
       (Client.request_interceptor (Some "eyJhbGciOi.eyJ1c2VyX2lk.c2ln") None)
     = match sample_verify "eyJhbGciOi.eyJ1c2VyX2lk.c2ln" with
       | Some user => Token user
       | None => BadToken
       end
  /\ Client.request_interceptor None None = None
  /\ Client.request_interceptor (Some "") None = None
  /\ Auth.credential_of sample_verify (Client.request_interceptor None None) = NoToken.
Proof.
  apply (client_token_reaches_server sample_verify "eyJhbGciOi.eyJ1c2VyX2lk.c2ln" None);
    [reflexivity | discriminate].
Defined.

(** ** The token check comes before the store *)

(** X5.  On the three routes behind [authenticateToken] (creation,
    deletion, roster) a request without a token is answered 401 "Missing
    token" and one with a rejected token 403 "Invalid token"; no
    statement is sent, so the answer is the same whether the store
    answers or throws, and the tables are as they were. *)
Theorem protected_routes_check_token_first
    (req : request) (db : Db) (plan : fault_plan) :
  protected req = true ->
  (authorization req = NoToken ->
   answers req db plan = Some (json 401 (Error "Missing token"), db))
  /\ (authorization req = BadToken ->
      answers req db plan = Some (json 403 (Error "Invalid token"), db)).
Proof.
  intros Hp. rewrite answers_table. unfold protected, routing_table in *.
  destruct (req_method req); destruct (strip_slash (req_path req)) as [|x [|y [|z l]]];
    try discriminate.
  - apply andb_true_iff in Hp as [Hx Hy]. apply negb_true_iff in Hx.
    rewrite Hx, Hy. cbn [option_map]. unfold get_attendees, authenticateToken.
    split; intros ->; reflexivity.
  - cbn [option_map]. unfold post_event, authenticateToken.
    split; intros ->; reflexivity.
  - apply negb_true_iff in Hp. rewrite Hp. cbn [option_map].
    unfold delete_event, authenticateToken.
    split; intros ->; reflexivity.
Qed.

Lemma protected_routes_check_token_first_witness :
  (authorization (Sample.request DELETE ["1"] NoToken) = NoToken ->
   answers (Sample.request DELETE ["1"] NoToken) Sample.db [Some "store is down"]
   = Some (json 401 (Error "Missing token"), Sample.db))
  /\ (authorization (Sample.request DELETE ["1"] NoToken) = BadToken ->
      answers (Sample.request DELETE ["1"] NoToken) Sample.db [Some "store is down"]
      = Some (json 403 (Error "Invalid token"), Sample.db)).
Proof.
  apply (protected_routes_check_token_first (Sample.request DELETE ["1"] NoToken)
           Sample.db [Some "store is down"]).
  reflexivity.
Defined.

(** ** What each handler answers and leaves, case by case *)

Lemma get_events_keeps req db plan : snd (get_events req db plan) = db.
Proof.
  destruct (filters_have_trim req) eqn:Htrim.
  - unfold filters_have_trim in Htrim. apply andb_true_iff in Htrim as [Hl Hd].
    unfold get_events, try_catch, bind.
    rewrite (optional_clause_runs _ _ db _ Hl), (optional_clause_runs _ _ db _ Hd).
    destruct plan as [|[msg|] rest]; reflexivity.
  - now rewrite get_events_thrown.
Qed.

Lemma get_events_first_thrown req db msg plan :
  get_events req db (Some msg :: plan)
  = (json 500 (Error "Failed to fetch events"), db).
Proof.
  rewrite (surjective_pairing (get_events req db (Some msg :: plan))).
  rewrite get_events_response, get_events_keeps. cbn [lets_through].
  now rewrite andb_false_r.
Qed.

Lemma get_event_outcome id req db plan :
  get_event id req db plan
  = (match plan with
     | Some msg :: _ => json 500 (Error msg)
     | _ => match Stmt.select_event id db with
            | [] => json 404 (Error "Event not found")
            | e :: _ => json 200 (Row e)
            end
     end, db).
Proof.
  unfold get_event, try_catch, bind, Stmt.reading.
  destruct plan as [|[msg|] rest]; cbn [db_query]; try reflexivity;
    destruct (Stmt.select_event id db); reflexivity.
Qed.

Lemma get_attendees_keeps id req db plan : snd (get_attendees id req db plan) = db.
Proof.
  unfold get_attendees, authenticateToken.
  destruct (authorization req) as [| |user]; try reflexivity.
  unfold try_catch, bind, Stmt.reading.
  destruct plan as [|[msg|] rest]; cbn [db_query]; try reflexivity;
    destruct (Stmt.select_owned_event id (user_id user) db); try reflexivity;
    try (destruct rest as [|[msg|] rest]; reflexivity).
Qed.

Lemma post_event_outcome req db plan :
  post_event req db plan
  = match authorization req with
    | NoToken => (json 401 (Error "Missing token"), db)
    | BadToken => (json 403 (Error "Invalid token"), db)
    | Token user =>
        match body_sent req with
        | None => (json 500 (Error "Server error creating event"), db)
        | Some form =>
            if Js.truthy (Body.title form) && Js.truthy (Body.date form)
            then if lets_through 1 plan
                 then (json 201 (Created "✅ Event created successfully"
                                         (next_event_id db)),
                       after_create req user db)
                 else (json 500 (Error "Server error creating event"), db)
            else (json 400 (Error "Title and Date are required"), db)
        end
    end.
Proof.
  unfold post_event, authenticateToken.
  destruct (authorization req) as [| |user]; try reflexivity.
  destruct (body_sent req) as [form|] eqn:Hbody; [|reflexivity].
  rewrite bind_ret.
  destruct (Js.truthy (Body.title form)); destruct (Js.truthy (Body.date form));
    try reflexivity.
  cbn [negb orb andb]. unfold try_catch, bind.
  destruct plan as [|[msg|] rest]; cbn [db_query lets_through]; try reflexivity;
    unfold after_create, created_row, image_url_of, Stmt.insert_event, Js.upload_url,
      req_body;
    rewrite Hbody; destruct (req_file req); reflexivity.
Qed.

Lemma delete_event_outcome id req db plan :
  delete_event id req db plan
  = match authorization req with
    | NoToken => (json 401 (Error "Missing token"), db)
    | BadToken => (json 403 (Error "Invalid token"), db)
    | Token user =>
        match plan with
        | Some msg :: _ => (json 500 (Error msg), db)
        | _ =>
            (if Z.of_nat (List.length (filter (may_delete user id) (events db))) =? 0
             then json 404 (Error "Event not found or unauthorized")
             else json 200 (Message "🗑️ Event deleted successfully"),
             after_delete user id db)
        end
    end.
Proof.
  unfold delete_event, authenticateToken.
  destruct (authorization req) as [| |user]; try reflexivity.
  unfold try_catch, bind, after_delete, may_delete, owns.
  destruct plan as [|[msg|] rest]; cbn [db_query]; try reflexivity;
    unfold Stmt.delete_events;
    destruct (role user =? "admin")%string;
    match goal with
    | |- context [Z.of_nat ?n =? 0] => destruct (Z.of_nat n =? 0); reflexivity
    end.
Qed.

(** X6.  No GET changes a table: whatever the path, the credential,
    the filters and the behaviour of the store, the tables after a GET
    are the tables before it. *)
Theorem get_requests_leave_tables
    (req : request) (db : Db) (plan : fault_plan) :
  req_method req = GET ->
  option_map snd (answers req db plan) = option_map (fun _ => db) (answers req db plan).
Proof.
  intros Hm. rewrite answers_table. unfold routing_table. rewrite Hm.
  destruct (strip_slash (req_path req)) as [|x [|y [|z l]]]; cbn [option_map]; try reflexivity.
  - now rewrite get_events_keeps.
  - destruct (x =? "")%string; cbn [option_map]; [reflexivity|].
    now rewrite get_event_outcome.
  - destruct (x =? "")%string; [reflexivity|].
    destruct (eqb_ci "attendees" y); cbn [option_map]; [|reflexivity].
    now rewrite get_attendees_keeps.
Qed.

Lemma get_requests_leave_tables_witness :
  option_map snd
    (answers (Sample.request GET ["1"; "attendees"] Sample.organizer7) Sample.db [])
  = option_map (fun _ => Sample.db)
      (answers (Sample.request GET ["1"; "attendees"] Sample.organizer7) Sample.db []).
Proof.
  apply (get_requests_leave_tables
           (Sample.request GET ["1"; "attendees"] Sample.organizer7) Sample.db []).
  reflexivity.
Defined.

(** X7.  When the first statement of a request throws, nothing is
    written and nothing succeeds: the tables are as they were and the
    status is 500, or the 400, 401 or 403 of a check that comes before
    the statement; it is never 200, 201 or 404. *)
Theorem first_statement_failure
    (req : request) (db : Db) (msg : string) (plan : fault_plan)
    (r : response) (db' : Db) :
  answers req db (Some msg :: plan) = Some (r, db') ->
  db' = db /\ In (code r) [400; 401; 403; 500].
Proof.
  rewrite answers_table. unfold routing_table.
  destruct (req_method req); destruct (strip_slash (req_path req)) as [|x [|y [|z l]]];
    cbn [option_map]; try discriminate.
  - rewrite get_events_first_thrown. intros H. injection H as <- <-. cbn. tauto.
  - destruct (x =? "")%string; cbn [option_map]; [discriminate|].
    rewrite get_event_outcome. intros H. injection H as <- <-. cbn. tauto.
  - destruct (x =? "")%string; [discriminate|].
    destruct (eqb_ci "attendees" y); cbn [option_map]; [|discriminate].
    unfold get_attendees, authenticateToken.
    destruct (authorization req); intros H; injection H as <- <-; cbn; tauto.
  - rewrite post_event_outcome.
    destruct (authorization req);
      [| |destruct (body_sent req); [destruct (_ && _)|]];
      cbn [lets_through]; intros H; injection H as <- <-; cbn; tauto.
  - destruct (x =? "")%string; cbn [option_map]; [discriminate|].
    rewrite delete_event_outcome.
    destruct (authorization req); intros H; injection H as <- <-; cbn; tauto.
Qed.

Lemma first_statement_failure_witness :
  Sample.db = Sample.db /\ In (code (json 500 (Error "store is down"))) [400; 401; 403; 500].
Proof.
  apply (first_statement_failure (Sample.request DELETE ["1"] Sample.organizer7)
           Sample.db "store is down" [] (json 500 (Error "store is down")) Sample.db).
  reflexivity.
Defined.

(** X8.  On every route but "/:id" (with or without a slash at its
    end), a 500 answer carries one of three fixed messages; what the
    store said of its failure is not in it. *)
Theorem failures_with_fixed_messages
    (req : request) (db : Db) (plan : fault_plan) (r : response) (db' : Db) :
  (forall id, strip_slash (req_path req) <> [id]) ->
  answers req db plan = Some (r, db') ->
  code r = 500 ->
  exists message, body r = Error message /\ In message fixed_failure_messages.
Proof.
  rewrite answers_table. unfold routing_table.
  destruct (req_method req); destruct (strip_slash (req_path req)) as [|x [|y [|z l]]];
    intros Hpath; cbn [option_map]; try discriminate;
    try (exfalso; now apply (Hpath x)).
  - intros H Hc. injection H as H. apply (f_equal fst) in H. cbn [fst] in H.
    rewrite get_events_response in H.
    destruct (filters_have_trim req && lets_through 1 plan); subst r; [discriminate|].
    eexists. split; [reflexivity|]. cbn. tauto.
  - destruct (x =? "")%string; [discriminate|].
    destruct (eqb_ci "attendees" y); cbn [option_map]; [|discriminate].
    intros H Hc. injection H as H. apply (f_equal fst) in H. cbn [fst] in H.
    rewrite get_attendees_response in H.
    destruct (authorization req) as [| |user]; [subst r; discriminate..|].
    destruct (lets_through 1 plan);
      [destruct (Stmt.select_owned_event x (user_id user) db);
       [|destruct (lets_through 2 plan)]|];
      subst r; try discriminate;
      (eexists; split; [reflexivity|]; cbn; tauto).
  - rewrite post_event_outcome. intros H Hc.
    destruct (authorization req);
      [| |destruct (body_sent req);
          [destruct (_ && _); [destruct (lets_through 1 plan)|]|]];
      injection H as <- <-; try discriminate;
      (eexists; split; [reflexivity|]; cbn; tauto).
Qed.

Lemma failures_with_fixed_messages_witness :
  exists message,
    body (json 500 (Error "Server error fetching attendees")) = Error message
    /\ In message fixed_failure_messages.
Proof.
  apply (failures_with_fixed_messages
           (Sample.request GET ["1"; "attendees"] Sample.organizer7) Sample.db
           [None; Some "ER_LOCK_WAIT_TIMEOUT on bookings"]
           (json 500 (Error "Server error fetching attendees")) Sample.db);
    [discriminate | reflexivity | reflexivity].
Defined.

(** ** The location filter *)

Lemma like_percent_unfold p t :
  Sql.like (String "%" p) t
  = Sql.like p t
    || match t with
       | String _ t' => Sql.like (String "%" p) t'
       | EmptyString => false
       end.
Proof. destruct t; reflexivity. Qed.

Lemma like_plain_cons c p t :
  negb (c =? "%")%char && negb (c =? "_")%char && negb (c =? "\")%char = true ->
  Sql.like (String c p) t
  = match t with
    | String d t' => Sql.char_eq_ci c d && Sql.like p t'
    | EmptyString => false
    end.
Proof.
  destruct c as [b0 b1 b2 b3 b4 b5 b6 b7].
  destruct b0, b1, b2, b3, b4, b5, b6, b7; intros H;
    try discriminate H; reflexivity.
Qed.

Lemma like_percent_all t : Sql.like "%" t = true.
Proof.
  induction t as [|c t IH]; [reflexivity|].
  rewrite like_percent_unfold, IH. apply orb_true_r.
Qed.

Lemma like_percent_prefix q t :
  Sql.like (String "%" q) t = true
  <-> exists before rest, t = (before ++ rest)%string /\ Sql.like q rest = true.
Proof.
  induction t as [|c t IH]; rewrite like_percent_unfold.
  - rewrite orb_false_r. split.
    + intros H. exists "", "". auto.
    + intros (b & r & E & H). destruct b; [|discriminate]. simpl in E. now subst r.
  - rewrite orb_true_iff, IH. split.
    + intros [H | (b & r & -> & H)].
      * exists "", (String c t). auto.
      * exists (String c b), r. auto.
    + intros (b & r & E & H). destruct b as [|c' b]; simpl in E.
      * left. now subst r.
      * right. injection E as -> ->. eauto.
Qed.

Lemma like_plain_then_percent l : forall t,
  plain l = true ->
  (Sql.like (l ++ "%") t = true
   <-> exists found after, t = (found ++ after)%string /\ eqb_ci l found = true).
Proof.
  induction l as [|c l IH]; intros t Hl.
  - cbn [append]. rewrite like_percent_all. split; [intros _|reflexivity].
    exists "", t. auto.
  - cbn [plain] in Hl. apply andb_true_iff in Hl as [Hc Hl].
    cbn [append]. rewrite (like_plain_cons c _ t Hc).
    destruct t as [|d t].
    + split; [discriminate|]. intros (f & a & E & H).
      destruct f; [discriminate H | discriminate E].
    + rewrite andb_true_iff, (IH t Hl). split.
      * intros [Hcd (f & a & -> & H)]. exists (String d f), a.
        split; [reflexivity|]. cbn [eqb_ci]. now rewrite Hcd.
      * intros (f & a & E & H). destruct f as [|d' f]; [discriminate H|].
        cbn [append] in E. injection E as -> ->.
        cbn [eqb_ci] in H. apply andb_true_iff in H as [Hcd H]. eauto.
Qed.

(** The pattern the handler builds, for a text without pattern
    characters: a case-blind search for the text. *)
Lemma like_contains l t :
  plain l = true ->
  (Sql.like ("%" ++ l ++ "%") t = true <-> contains_ci l t).
Proof.
  intros Hl. cbn [append]. rewrite like_percent_prefix. unfold contains_ci.
  split.
  - intros (b & r & -> & H). apply (like_plain_then_percent l r Hl) in H
      as (f & a & -> & H). eauto.
  - intros (b & f & a & -> & H). exists b, (f ++ a)%string. split; [reflexivity|].
    apply (like_plain_then_percent l _ Hl). eauto.
Qed.

Lemma like_percents l t :
  percents l = true -> Sql.like ("%" ++ l ++ "%") t = true.
Proof.
  intros Hl. cbn [append]. revert t.
  induction l as [|c l IH]; intros t.
  - cbn [append]. apply like_percent_prefix. exists "", t.
    split; [reflexivity | apply like_percent_all].
  - cbn [percents] in Hl. apply andb_true_iff in Hl as [Hc Hl].
    apply Ascii.eqb_eq in Hc. subst c. cbn [append].
    apply like_percent_prefix. exists "", t. split; [reflexivity|]. now apply IH.
Qed.

(** The rows of a listing on keyed events, while the store answers. *)
Lemma listing_rows req db plan :
  req_method req = GET -> req_path req = [] ->
  events_keyed db -> lets_through 1 plan = true ->
  filters_have_trim req = true ->
  answers req db plan
  = Some (json 200
            (Rows (Sql.order_by Stmt.by_date_asc
                     (map (listed db)
                          (filter (Stmt.where_all (listing_clauses req)) (events db))))),
          db).
Proof.
  intros Hm Hp K Hplan Htrim. unfold answers. rewrite (route_listing req Hm Hp).
  cbn [option_map]. rewrite get_events_through by assumption.
  now rewrite select_events_with_seats_keyed.
Qed.

Lemma listing_rows_by_location req db plan l :
  req_method req = GET -> req_path req = [] ->
  query_location req = Js.Text l -> Js.nonblank l = true ->
  filter_absent (query_date req) ->
  events_keyed db -> lets_through 1 plan = true ->
  exists rows,
    answers req db plan = Some (json 200 (Rows rows), db)
    /\ forall r, In r rows <->
                 exists e t, In e (events db)
                             /\ Events.location e = Some t
                             /\ Sql.like ("%" ++ l ++ "%") t = true
                             /\ r = listed db e.
Proof.
  intros Hm Hp Hl Hnb Hdate K Hplan.
  assert (Htrim : filters_have_trim req = true).
  { unfold filters_have_trim. now rewrite Hl, (absent_has_trim _ Hdate). }
  eexists. split; [now apply listing_rows|].
  intros r. rewrite in_order_by, in_map_iff.
  assert (Hkeep : forall e,
             Stmt.where_all (listing_clauses req) e = true
             <-> exists t, Events.location e = Some t
                           /\ Sql.like ("%" ++ l ++ "%") t = true).
  { intros e. unfold listing_clauses.
    rewrite Hl, (optional_clause_absent _ _ Hdate). cbn [clause_of].
    rewrite Hnb. cbn [app]. unfold Stmt.where_all. cbn [forallb].
    rewrite andb_true_r. unfold Stmt.location_like.
    destruct (Events.location e) as [t|].
    - split; [eauto|]. now intros (t' & [= <-] & H).
    - split; [discriminate|]. now intros (t' & [=] & _). }
  split.
  - intros (e & <- & He). apply filter_In in He as [He Hk].
    apply Hkeep in Hk as (t & Ht & Hlike). exists e, t. auto.
  - intros (e & t & He & Ht & Hlike & ->). exists e. split; trivial.
    apply filter_In. split; trivial. apply Hkeep. eauto.
Qed.

(** X9.  GET /events with a [location] that reaches the handler as
    one text value, and no date, on a store whose locations are written
    in one-byte characters.  A location of one-byte characters that is
    not blank and has no pattern character ([%], [_], backslash) keeps
    exactly the events whose location contains it, letters compared
    without regard to case; an event without a location is never kept.
    A location that is absent or blank (empty, or white space only)
    changes nothing. *)
Theorem location_filter_by_substring (req : request) (db : Db) (plan : fault_plan) :
  req_method req = GET -> req_path req = [] ->
  (forall l,
      query_location req = Js.Text l -> Js.nonblank l = true ->
      plain l = true -> ascii_only l = true ->
      filter_absent (query_date req) ->
      events_keyed db -> locations_ascii db -> lets_through 1 plan = true ->
      exists rows,
        answers req db plan = Some (json 200 (Rows rows), db)
        /\ forall r, In r rows <->
                     exists e t, In e (events db)
                                 /\ Events.location e = Some t
                                 /\ contains_ci l t
                                 /\ r = listed db e)
  /\ (filter_absent (query_location req) ->
      answers req db plan = answers (without_location req) db plan).
Proof.
  intros Hm Hp. split.
  - intros l Hl Hnb Hplain _ Hdate K _ Hplan.
    destruct (listing_rows_by_location req db plan l) as (rows & Hrows & Hin);
      trivial.
    exists rows. split; [exact Hrows|].
    intros r. rewrite Hin. split.
    + intros (e & t & He & Ht & Hlike & ->). exists e, t.
      repeat split; trivial. now apply like_contains.
    + intros (e & t & He & Ht & Hc & ->). exists e, t.
      repeat split; trivial. now apply like_contains.
  - intros Habs. unfold answers.
    rewrite (route_listing req Hm Hp), (route_listing (without_location req) Hm Hp).
    cbn [option_map]. f_equal.
    unfold get_events. cbn [without_location query_location query_date].
    destruct (query_location req) as [|l| |]; try contradiction; [reflexivity|].
    cbn [filter_absent] in Habs. cbn [optional_clause]. now rewrite Habs.
Qed.

Lemma location_filter_by_substring_witness :
  exists rows,
    answers (sample_listing (Some "delhi")) Sample.db []
    = Some (json 200 (Rows rows), Sample.db)
    /\ forall r, In r rows <->
                 exists e t, In e (events Sample.db)
                             /\ Events.location e = Some t
                             /\ contains_ci "delhi" t
                             /\ r = listed Sample.db e.
Proof.
  destruct (location_filter_by_substring (sample_listing (Some "delhi")) Sample.db []
              eq_refl eq_refl) as [H _].
  apply (H "delhi"); try reflexivity; try exact I.
  - unfold events_keyed. simpl. repeat constructor; simpl; intuition discriminate.
  - intros e t He Ht. simpl in He.
    repeat (destruct He as [<-|He]; [injection Ht as <-; reflexivity|]).
    contradiction.
Defined.

(** X10.  The text of the filter is a pattern, not a literal: a
    location made of percent signs keeps every event that has a
    location, whatever it is. *)
Theorem location_of_percent_signs
    (req : request) (db : Db) (plan : fault_plan) (l : string) :
  req_method req = GET -> req_path req = [] ->
  query_location req = Js.Text l -> Js.nonblank l = true -> percents l = true ->
  filter_absent (query_date req) ->
  events_keyed db -> lets_through 1 plan = true ->
  exists rows,
    answers req db plan = Some (json 200 (Rows rows), db)
    /\ forall r, In r rows <->
                 exists e, In e (events db)
                           /\ Events.location e <> None
                           /\ r = listed db e.
Proof.
  intros Hm Hp Hl Hnb Hpc Hdate K Hplan.
  destruct (listing_rows_by_location req db plan l) as (rows & Hrows & Hin); trivial.
  exists rows. split; [exact Hrows|].
  intros r. rewrite Hin. split.
  - intros (e & t & He & Ht & _ & ->). exists e. rewrite Ht.
    repeat split; trivial. discriminate.
  - intros (e & He & Hsome & ->).
    destruct (Events.location e) as [t|] eqn:Ht; [|contradiction].
    exists e, t. repeat split; trivial. now apply like_percents.
Qed.

Lemma location_of_percent_signs_witness :
  exists rows,
    answers (sample_listing (Some "%")) Sample.db []
    = Some (json 200 (Rows rows), Sample.db)
    /\ forall r, In r rows <->
                 exists e, In e (events Sample.db)
                           /\ Events.location e <> None
                           /\ r = listed Sample.db e.
Proof.
  apply (location_of_percent_signs (sample_listing (Some "%")) Sample.db [] "%");
    try reflexivity; try exact I.
  unfold events_keyed. simpl. repeat constructor; simpl; intuition discriminate.
Defined.

Example location_filter_of_sample :
  option_map (fun a => match body (fst a) with
                       | Rows rows => map Events.event_id rows
                       | _ => []
                       end)
    (answers (sample_listing (Some "w DEL")) Sample.db [])
  = Some [2; 3; 1]
  /\ option_map (fun a => match body (fst a) with
                          | Rows rows => map Events.event_id rows
                          | _ => []
                          end)
       (answers (sample_listing (Some "n_w")) Sample.db [])
     = Some [2; 3; 1]
  /\ option_map (fun a => match body (fst a) with
                          | Rows rows => map Events.event_id rows
                          | _ => []
                          end)
       (answers (sample_listing (Some "Goa")) Sample.db [])
     = Some [].
Proof. repeat split; reflexivity. Qed.

(** ** Order and distinctness of the listing *)

Lemma by_date_asc_total a b :
  Stmt.by_date_asc a b = false -> Stmt.by_date_asc b a = true.
Proof. exact (by_date_desc_total b a). Qed.

Lemma by_date_asc_trans a b c :
  Stmt.by_date_asc a b = true -> Stmt.by_date_asc b c = true ->
  Stmt.by_date_asc a c = true.
Proof.
  unfold Stmt.by_date_asc, Sql.datetime_leb.
  rewrite !orb_true_iff, !andb_true_iff, !Z.ltb_lt, !Z.eqb_eq, !Z.leb_le. lia.
Qed.

Lemma listing_answer_rows req db plan rows db' :
  req_method req = GET -> req_path req = [] ->
  answers req db plan = Some (json 200 (Rows rows), db') ->
  rows = Stmt.select_events_with_seats (listing_clauses req) db.
Proof.
  intros Hm Hp. unfold answers. rewrite (route_listing req Hm Hp). cbn [option_map].
  intros H. injection H as H. apply (f_equal fst) in H. cbn [fst] in H.
  rewrite get_events_response in H.
  destruct (filters_have_trim req && lets_through 1 plan); [|discriminate].
  now injection H as <-.
Qed.

(** X11.  The rows of a listing are in the order of their dates: each
    row's date is not later than the date of any row after it. *)
Theorem listing_sorted_by_date
    (req : request) (db : Db) (plan : fault_plan) (rows : list Events.row) (db' : Db) :
  req_method req = GET -> req_path req = [] ->
  answers req db plan = Some (json 200 (Rows rows), db') ->
  StronglySorted
    (fun a b => Sql.datetime_leb (Events.date a) (Events.date b) = true) rows.
Proof.
  intros Hm Hp H. rewrite (listing_answer_rows req db plan rows db' Hm Hp H).
  unfold Stmt.select_events_with_seats.
  apply Sorted_StronglySorted.
  - intros a b c. apply by_date_asc_trans.
  - apply (order_by_Sorted Stmt.by_date_asc). exact by_date_asc_total.
Qed.

Lemma listing_sorted_by_date_witness :
  StronglySorted
    (fun a b => Sql.datetime_leb (Events.date a) (Events.date b) = true)
    (Stmt.select_events_with_seats [] Sample.db).
Proof.
  apply (listing_sorted_by_date (Sample.request GET [] NoToken) Sample.db []
           (Stmt.select_events_with_seats [] Sample.db) Sample.db);
    reflexivity.
Defined.

Lemma add_to_groups_ids r gs k :
  In k (map group_id (Stmt.add_to_groups r gs)) ->
  k = Events.event_id (fst r) \/ In k (map group_id gs).
Proof.
  induction gs as [|[e ms] gs IH]; simpl.
  - unfold group_id. cbn. intuition.
  - destruct (Events.event_id e =? Events.event_id (fst r)); simpl.
    + unfold group_id at 1 3. cbn. intuition.
    + unfold group_id at 1 3. cbn. intuition.
Qed.

Lemma add_to_groups_NoDup r gs :
  NoDup (map group_id gs) -> NoDup (map group_id (Stmt.add_to_groups r gs)).
Proof.
  induction gs as [|[e ms] gs IH]; simpl; intros ND.
  - repeat constructor. simpl. tauto.
  - inversion ND as [|? ? Hnot ND']; subst.
    destruct (Z.eqb_spec (Events.event_id e) (Events.event_id (fst r))) as [E|E]; simpl.
    + constructor; assumption.
    + constructor; [|now apply IH].
      intros Hin. apply add_to_groups_ids in Hin as [Hk|Hin].
      * unfold group_id in Hk. cbn in Hk. contradiction.
      * contradiction.
Qed.

Lemma group_by_NoDup rows : forall gs,
  NoDup (map group_id gs) ->
  NoDup (map group_id (fold_left (fun gs r => Stmt.add_to_groups r gs) rows gs)).
Proof.
  induction rows as [|r rows IH]; simpl; intros gs ND; [exact ND|].
  apply IH. now apply add_to_groups_NoDup.
Qed.

Lemma NoDup_map_insert_sorted {A} (key : A -> Z) leb x (l : list A) :
  NoDup (map key (x :: l)) -> NoDup (map key (Sql.insert_sorted leb x l)).
Proof.
  induction l as [|y l IH]; simpl; intros ND; [exact ND|].
  destruct (leb x y); [exact ND|].
  inversion ND as [|? ? Hx NDl]; subst. inversion NDl as [|? ? Hy NDl']; subst.
  simpl. constructor.
  - intros Hin. apply in_map_iff in Hin as (z & Hz & Hin).
    apply in_insert_sorted in Hin as [->|Hin].
    + apply Hx. left. now symmetry.
    + apply Hy. rewrite <- Hz. now apply in_map.
  - apply IH. simpl. constructor; [|assumption].
    intros Hin. apply Hx. now right.
Qed.

Lemma NoDup_map_order_by {A} (key : A -> Z) leb (l : list A) :
  NoDup (map key l) -> NoDup (map key (Sql.order_by leb l)).
Proof.
  unfold Sql.order_by.
  induction l as [|x l IH]; simpl; intros ND; [constructor|].
  inversion ND as [|? ? Hx NDl]; subst.
  apply NoDup_map_insert_sorted. simpl. constructor; [|now apply IH].
  intros Hin. apply Hx.
  apply in_map_iff in Hin as (z & Hz & Hin). apply in_order_by in Hin.
  rewrite <- Hz. now apply in_map.
Qed.

(** X12.  A listing never shows an event id twice, filters or not:
    the statement groups by the id, so this needs no assumption on the
    tables. *)
Theorem listing_ids_distinct
    (req : request) (db : Db) (plan : fault_plan) (rows : list Events.row) (db' : Db) :
  req_method req = GET -> req_path req = [] ->
  answers req db plan = Some (json 200 (Rows rows), db') ->
  NoDup (map Events.event_id rows).
Proof.
  intros Hm Hp H. rewrite (listing_answer_rows req db plan rows db' Hm Hp H).
  unfold Stmt.select_events_with_seats, Stmt.group_by_event_id.
  apply NoDup_map_order_by. rewrite map_map.
  apply (group_by_NoDup _ []). constructor.
Qed.

Lemma listing_ids_distinct_witness :
  NoDup (map Events.event_id
           (Stmt.select_events_with_seats []
              (with_event Sample.db (Sample.event 1 10 8 20240701 0)))).
Proof.
  apply (listing_ids_distinct (Sample.request GET [] NoToken)
           (with_event Sample.db (Sample.event 1 10 8 20240701 0)) []
           (Stmt.select_events_with_seats []
              (with_event Sample.db (Sample.event 1 10 8 20240701 0)))
           (with_event Sample.db (Sample.event 1 10 8 20240701 0)));
    reflexivity.
Defined.

(** ** Looking one event up *)

Lemma through_first {A} (f : string -> A) (y : A) plan :
  lets_through 1 plan = true ->
  match plan with Some msg :: _ => f msg | _ => y end = y.
Proof. destruct plan as [|[msg|] rest]; trivial. discriminate. Qed.

(** X13.  GET /events/:id while the store answers: when an event has
    the id the path names, the answer is 200 with that row as it is
    stored; when none has, it is 404 "Event not found".  The credential
    is not looked at. *)
Theorem single_event_lookup
    (req : request) (id : string) (db : Db) (plan : fault_plan) :
  req_method req = GET -> req_path req = [id] -> id <> "" ->
  lets_through 1 plan = true ->
  (forall e,
      events_keyed db -> In e (events db) -> Events.event_id e = Sql.number id ->
      answers req db plan = Some (json 200 (Row e), db))
  /\ ((forall e, In e (events db) -> Events.event_id e <> Sql.number id) ->
      answers req db plan = Some (json 404 (Error "Event not found"), db)).
Proof.
  intros Hm Hp Hid Hplan. unfold answers.
  rewrite (route_single_event req id Hm Hp Hid). cbn [option_map].
  rewrite get_event_outcome.
  rewrite (through_first (fun msg => json 500 (Error msg))) by assumption. split.
  - intros e K He Heid. unfold Stmt.select_event. rewrite <- Heid.
    now rewrite (filter_key_unique Events.event_id e).
  - intros Hnone. unfold Stmt.select_event.
    rewrite filter_none; [reflexivity|].
    intros e He. apply Z.eqb_neq. now apply Hnone.
Qed.

Lemma single_event_lookup_witness :
  (forall e,
      events_keyed Sample.db -> In e (events Sample.db) ->
      Events.event_id e = Sql.number "3" ->
      answers (Sample.request GET ["3"] NoToken) Sample.db []
      = Some (json 200 (Row e), Sample.db))
  /\ ((forall e, In e (events Sample.db) -> Events.event_id e <> Sql.number "3") ->
      answers (Sample.request GET ["3"] NoToken) Sample.db []
      = Some (json 404 (Error "Event not found"), Sample.db)).
Proof.
  apply (single_event_lookup (Sample.request GET ["3"] NoToken) "3" Sample.db []);
    try reflexivity. discriminate.
Defined.

(** X14.  The lookup does not recompute the seats: it shows the stored
    [available_seats], the listing shows capacity less bookings.  For an
    event whose stored field is not that difference, the two answers
    disagree on the seats of the same event. *)
Theorem lookup_shows_stored_seats
    (listing lookup : request) (id : string) (db : Db) (plan : fault_plan)
    (e : Events.row) :
  req_method listing = GET -> req_path listing = [] ->
  filter_absent (query_location listing) -> filter_absent (query_date listing) ->
  req_method lookup = GET -> req_path lookup = [id] -> id <> "" ->
  events_keyed db -> In e (events db) -> Events.event_id e = Sql.number id ->
  lets_through 1 plan = true ->
  Events.available_seats e <> Events.capacity e - booked db e ->
  exists rows,
    answers listing db plan = Some (json 200 (Rows rows), db)
    /\ answers lookup db plan = Some (json 200 (Row e), db)
    /\ In (listed db e) rows
    /\ ~ In e rows
    /\ Events.available_seats (listed db e) <> Events.available_seats e.
Proof.
  intros Hm Hp Hloc Hdate Hm' Hp' Hid K He Heid Hplan Hstale.
  assert (Htrim := absent_filters_have_trim listing Hloc Hdate).
  eexists. split; [now apply listing_rows|].
  split; [|split; [|split]].
  - unfold answers. rewrite (route_single_event lookup id Hm' Hp' Hid).
    cbn [option_map]. rewrite get_event_outcome.
    rewrite (through_first (fun msg => json 500 (Error msg))) by assumption.
    unfold Stmt.select_event. rewrite <- Heid.
    now rewrite (filter_key_unique Events.event_id e).
  - apply in_order_by, in_map, filter_In. split; trivial.
    unfold listing_clauses. now rewrite !optional_clause_absent.
  - rewrite in_order_by, in_map_iff. intros (x & Hx & Hin).
    apply filter_In in Hin as [Hin _].
    assert (x = e).
    { assert (Hsame : Events.event_id x = Events.event_id e)
        by (rewrite <- Hx; reflexivity).
      assert (Hf := filter_key_unique Events.event_id e (events db) K He).
      assert (Hx' : In x (filter (fun y => Events.event_id y =? Events.event_id e)
                                 (events db)))
        by (apply filter_In; split; trivial; now apply Z.eqb_eq).
      rewrite Hf in Hx'. destruct Hx' as [<-|[]]. reflexivity. }
    subst x. apply Hstale. rewrite <- Hx at 1. reflexivity.
  - cbn. intros H. apply Hstale. now symmetry.
Qed.

Lemma lookup_shows_stored_seats_witness :
  exists rows,
    answers (Sample.request GET [] NoToken) Sample.db []
    = Some (json 200 (Rows rows), Sample.db)
    /\ answers (Sample.request GET ["1"] NoToken) Sample.db []
       = Some (json 200 (Row (Sample.event 1 50 7 20240502 180000)), Sample.db)
    /\ In (listed Sample.db (Sample.event 1 50 7 20240502 180000)) rows
    /\ ~ In (Sample.event 1 50 7 20240502 180000) rows
    /\ Events.available_seats (listed Sample.db (Sample.event 1 50 7 20240502 180000))
       <> Events.available_seats (Sample.event 1 50 7 20240502 180000).
Proof.
  apply (lookup_shows_stored_seats (Sample.request GET [] NoToken)
           (Sample.request GET ["1"] NoToken) "1" Sample.db []
           (Sample.event 1 50 7 20240502 180000));
    try reflexivity; try exact I; try discriminate.
  - unfold events_keyed. simpl. repeat constructor; simpl; intuition discriminate.
  - simpl. tauto.
Defined.

Lemma get_my_events_contract_witness :
  exists rows,
    get_my_events (Sample.request GET ["my-events"] Sample.organizer7) Sample.db []
    = (json 200 (Rows rows), Sample.db)
    /\ (forall e, In e rows <->
                  In e (events Sample.db)
                  /\ Events.organizer_id e = user_id (mk_identity 7 "organizer"))
    /\ Sorted (fun a b => Stmt.by_date_desc a b = true) rows.
Proof.
  apply (get_my_events_contract (Sample.request GET ["my-events"] Sample.organizer7)
           (mk_identity 7 "organizer") Sample.db []); reflexivity.
Defined.

(** ** Creating: the row, the keys, and what follows a creation *)

Lemma post_event_created req user db plan :
  authorization req = Token user ->
  Js.truthy (Body.title (req_body req)) = true ->
  Js.truthy (Body.date (req_body req)) = true ->
  lets_through 1 plan = true ->
  post_event req db plan
  = (json 201 (Created "✅ Event created successfully" (next_event_id db)),
     after_create req user db).
Proof.
  intros Hauth Ht Hd Hplan.
  rewrite post_event_outcome, Hauth, (titled_has_body req Ht), Ht, Hd, Hplan.
  reflexivity.
Qed.

Lemma NoDup_snoc {A} (l : list A) (x : A) :
  NoDup l -> ~ In x l -> NoDup (l ++ [x]).
Proof.
  induction l as [|y l IH]; simpl; intros ND Hx; [repeat constructor; tauto|].
  inversion ND as [|? ? Hy NDl]; subst. constructor.
  - rewrite in_app_iff. simpl. intros [H|[H|[]]]; [tauto|]. apply Hx. now left.
  - apply IH; tauto.
Qed.

Lemma after_create_well_keyed req user db :
  well_keyed db -> well_keyed (after_create req user db).
Proof.
  intros [K C]. unfold well_keyed, events_keyed, counter_ahead, after_create in *.
  cbn [events next_event_id]. split.
  - rewrite map_app. cbn [map created_row Events.event_id]. apply NoDup_snoc; trivial.
    intros Hin. apply in_map_iff in Hin as (e & He & Hin). apply C in Hin. lia.
  - intros e He. apply in_app_iff in He as [He|[<-|[]]].
    + apply C in He. lia.
    + cbn. lia.
Qed.

Lemma after_delete_well_keyed user id db :
  well_keyed db -> well_keyed (after_delete user id db).
Proof.
  intros [K C]. unfold well_keyed, events_keyed, counter_ahead, after_delete in *.
  cbn [events next_event_id]. split.
  - now apply NoDup_map_filter.
  - intros e He. apply filter_In in He as [He _]. now apply C.
Qed.

(** X16.  What a creation stores besides the defaults: the image
    address is built from the protocol and host of the request and the
    name of the uploaded file, or is the placeholder when no file came;
    a title given as text is stored as it is; the date is stored as the
    store reads the form's value; description, location and meeting link
    are stored as the store reads them, NULL when the form has none. *)
Theorem created_row_stores_form
    (req : request) (user : identity) (db : Db) (plan : fault_plan) :
  req_method req = POST -> req_path req = [] ->
  authorization req = Token user ->
  Js.truthy (Body.title (req_body req)) = true ->
  Js.truthy (Body.date (req_body req)) = true ->
  lets_through 1 plan = true ->
  exists row,
    answers req db plan
    = Some (json 201 (Created "✅ Event created successfully" (next_event_id db)),
            mk_db (events db ++ [row]) (bookings db) (users db) (next_event_id db + 1))
    /\ Events.image_url row
       = match req_file req with
         | Some filename =>
             (protocol req ++ "://" ++ host req ++ "/uploads/" ++ filename)%string
         | None => "https://via.placeholder.com/300"
         end
    /\ (forall s, Body.title (req_body req) = Js.Str s -> Events.title row = s)
    /\ Events.date row = Sql.to_datetime (Body.date (req_body req))
    /\ Events.description row = Sql.text (Body.description (req_body req))
    /\ Events.location row = Sql.text (Body.location (req_body req))
    /\ Events.meeting_link row = Sql.text (Body.meeting_link (req_body req))
    /\ (Body.description (req_body req) = Js.Undefined -> Events.description row = None)
    /\ (Body.location (req_body req) = Js.Undefined -> Events.location row = None).
Proof.
  intros Hm Hp Hauth Ht Hd Hplan. exists (created_row req user db).
  split.
  - unfold answers. rewrite (route_create req Hm Hp). cbn [option_map].
    now rewrite (post_event_created req user db plan).
  - unfold created_row. cbn. repeat split; trivial.
    + intros s ->. reflexivity.
    + intros ->. reflexivity.
    + intros ->. reflexivity.
Qed.

Lemma created_row_stores_form_witness :
  exists row,
    answers (mk_request POST [] None None Sample.organizer7 Sample.title_and_date
                        (Some "event-1717266600000.png") "https" "events.example.org")
            Sample.db []
    = Some (json 201 (Created "✅ Event created successfully" (next_event_id Sample.db)),
            mk_db (events Sample.db ++ [row]) (bookings Sample.db) (users Sample.db)
                  (next_event_id Sample.db + 1))
    /\ Events.image_url row
       = ("https" ++ "://" ++ "events.example.org" ++ "/uploads/"
          ++ "event-1717266600000.png")%string
    /\ (forall s, Body.title Sample.title_and_date = Js.Str s -> Events.title row = s)
    /\ Events.date row = Sql.to_datetime (Body.date Sample.title_and_date)
    /\ Events.description row = Sql.text (Body.description Sample.title_and_date)
    /\ Events.location row = Sql.text (Body.location Sample.title_and_date)
    /\ Events.meeting_link row = Sql.text (Body.meeting_link Sample.title_and_date)
    /\ (Body.description Sample.title_and_date = Js.Undefined ->
        Events.description row = None)
    /\ (Body.location Sample.title_and_date = Js.Undefined -> Events.location row = None).
Proof.
  apply (created_row_stores_form
           (mk_request POST [] None None Sample.organizer7 Sample.title_and_date
                       (Some "event-1717266600000.png") "https" "events.example.org")
           (mk_identity 7 "organizer") Sample.db []); reflexivity.
Defined.

(** X17.  The router keeps the keys of the events table: if the ids
    are distinct and the counter is above them all, they still are and
    it still is after any request, whatever its answer. *)
Theorem router_keeps_keys
    (req : request) (db : Db) (plan : fault_plan) (r : response) (db' : Db) :
  well_keyed db ->
  answers req db plan = Some (r, db') ->
  well_keyed db'.
Proof.
  intros W. rewrite answers_table. unfold routing_table.
  destruct (req_method req); destruct (strip_slash (req_path req)) as [|x [|y [|z l]]];
    cbn [option_map]; try discriminate.
  - intros H. injection H as H. apply (f_equal snd) in H.
    rewrite get_events_keeps in H. cbn in H. now subst db'.
  - destruct (x =? "")%string; cbn [option_map]; [discriminate|].
    rewrite get_event_outcome. intros H. now injection H as _ <-.
  - destruct (x =? "")%string; [discriminate|].
    destruct (eqb_ci "attendees" y); cbn [option_map]; [|discriminate].
    intros H. injection H as H. apply (f_equal snd) in H.
    rewrite get_attendees_keeps in H. cbn in H. now subst db'.
  - rewrite post_event_outcome.
    destruct (authorization req) as [| |user];
      [| |destruct (body_sent req);
          [destruct (_ && _); [destruct (lets_through 1 plan)|]|]];
      intros H; injection H as _ <-; trivial.
    now apply after_create_well_keyed.
  - destruct (x =? "")%string; cbn [option_map]; [discriminate|].
    rewrite delete_event_outcome.
    destruct (authorization req) as [| |user]; [| |destruct plan as [|[msg|] rest]];
      intros H; injection H as _ <-; trivial;
      now apply after_delete_well_keyed.
Qed.

Lemma router_keeps_keys_witness :
  well_keyed
    (after_create
       (mk_request POST [] None None Sample.organizer7 Sample.title_and_date
                   None "https" "events.example.org")
       (mk_identity 7 "organizer") Sample.db).
Proof.
  apply (router_keeps_keys
           (mk_request POST [] None None Sample.organizer7 Sample.title_and_date
                       None "https" "events.example.org")
           Sample.db []
           (json 201 (Created "✅ Event created successfully" 4))
           (after_create
              (mk_request POST [] None None Sample.organizer7 Sample.title_and_date
                          None "https" "events.example.org")
              (mk_identity 7 "organizer") Sample.db)).
  - split.
    + unfold events_keyed. simpl. repeat constructor; simpl; intuition discriminate.
    + intros e He. simpl in He.
      repeat (destruct He as [<-|He]; [simpl; lia|]). contradiction.
  - reflexivity.
Defined.

Lemma select_new_event req user db id :
  counter_ahead db -> Sql.number id = next_event_id db ->
  Stmt.select_event id (after_create req user db) = [created_row req user db].
Proof.
  intros C Hid. unfold Stmt.select_event, after_create. cbn [events].
  rewrite filter_app, Hid. cbn [filter created_row Events.event_id].
  rewrite Z.eqb_refl, filter_none; [reflexivity|].
  intros e He. apply Z.eqb_neq. apply C in He. lia.
Qed.

(** X18.  Creation then lookup: with the counter above the ids in use,
    the id a creation answers with leads the lookup to the row that was
    created, and to no older row. *)
Theorem created_event_can_be_looked_up
    (create lookup : request) (user : identity) (id : string) (db : Db)
    (plan plan' : fault_plan) :
  req_method create = POST -> req_path create = [] ->
  authorization create = Token user ->
  Js.truthy (Body.title (req_body create)) = true ->
  Js.truthy (Body.date (req_body create)) = true ->
  lets_through 1 plan = true ->
  counter_ahead db ->
  req_method lookup = GET -> req_path lookup = [id] -> id <> "" ->
  Sql.number id = next_event_id db ->
  lets_through 1 plan' = true ->
  exists row db',
    answers create db plan
    = Some (json 201 (Created "✅ Event created successfully" (Sql.number id)), db')
    /\ events db' = events db ++ [row]
    /\ answers lookup db' plan' = Some (json 200 (Row row), db')
    /\ Events.organizer_id row = user_id user.
Proof.
  intros Hm Hp Hauth Ht Hd Hplan C Hm' Hp' Hid Hnum Hplan'.
  exists (created_row create user db), (after_create create user db).
  split; [|split; [reflexivity|split; [|reflexivity]]].
  - unfold answers. rewrite (route_create create Hm Hp). cbn [option_map].
    now rewrite (post_event_created create user db plan), Hnum.
  - unfold answers. rewrite (route_single_event lookup id Hm' Hp' Hid).
    cbn [option_map]. rewrite get_event_outcome.
    rewrite (through_first (fun msg => json 500 (Error msg))) by assumption.
    now rewrite select_new_event.
Qed.

Lemma created_event_can_be_looked_up_witness :
  exists row db',
    answers (mk_request POST [] None None Sample.organizer7 Sample.title_and_date
                        None "https" "events.example.org") Sample.db []
    = Some (json 201 (Created "✅ Event created successfully" (Sql.number "4")), db')
    /\ events db' = events Sample.db ++ [row]
    /\ answers (Sample.request GET ["4"] NoToken) db' [] = Some (json 200 (Row row), db')
    /\ Events.organizer_id row = user_id (mk_identity 7 "organizer").
Proof.
  apply (created_event_can_be_looked_up
           (mk_request POST [] None None Sample.organizer7 Sample.title_and_date
                       None "https" "events.example.org")
           (Sample.request GET ["4"] NoToken)
           (mk_identity 7 "organizer") "4" Sample.db [] []);
    try reflexivity; try discriminate.
  intros e He. simpl in He.
  repeat (destruct He as [<-|He]; [simpl; lia|]). contradiction.
Defined.

(** X19.  Creation then listing: when no booking refers to an id the
    counter has not given out, the unfiltered listing after a creation
    shows the new event with all its seats: [available_seats] equal to
    its capacity. *)
Theorem created_event_is_listed_with_all_seats
    (create listing : request) (user : identity) (db : Db)
    (plan plan' : fault_plan) :
  req_method create = POST -> req_path create = [] ->
  authorization create = Token user ->
  Js.truthy (Body.title (req_body create)) = true ->
  Js.truthy (Body.date (req_body create)) = true ->
  lets_through 1 plan = true ->
  well_keyed db -> bookings_behind_counter db ->
  req_method listing = GET -> req_path listing = [] ->
  filter_absent (query_location listing) -> filter_absent (query_date listing) ->
  lets_through 1 plan' = true ->
  exists row db' rows,
    answers create db plan
    = Some (json 201 (Created "✅ Event created successfully" (next_event_id db)), db')
    /\ events db' = events db ++ [row]
    /\ answers listing db' plan' = Some (json 200 (Rows rows), db')
    /\ In row rows
    /\ Events.event_id row = next_event_id db
    /\ Events.available_seats row = Events.capacity row.
Proof.
  intros Hm Hp Hauth Ht Hd Hplan W B Hm' Hp' Hloc Hdate Hplan'.
  exists (created_row create user db), (after_create create user db).
  eexists.
  split; [|split; [reflexivity|split; [|split; [|split; reflexivity]]]].
  - unfold answers. rewrite (route_create create Hm Hp). cbn [option_map].
    now rewrite (post_event_created create user db plan).
  - apply listing_rows; trivial;
      [now apply after_create_well_keyed | now apply absent_filters_have_trim].
  - apply in_order_by, in_map_iff. exists (created_row create user db). split.
    + unfold listed, booked, bookings_of.
      rewrite filter_none.
      * cbn [List.length Z.of_nat]. rewrite Z.sub_0_r. reflexivity.
      * intros b Hb. apply Z.eqb_neq. apply B in Hb. cbn. lia.
    + apply filter_In. split.
      * unfold after_create. cbn [events]. apply in_app_iff. right. now left.
      * unfold listing_clauses. now rewrite !optional_clause_absent.
Qed.

Lemma created_event_is_listed_with_all_seats_witness :
  exists row db' rows,
    answers (mk_request POST [] None None Sample.organizer7 Sample.title_and_date
                        None "https" "events.example.org") Sample.db []
    = Some (json 201 (Created "✅ Event created successfully" (next_event_id Sample.db)),
            db')
    /\ events db' = events Sample.db ++ [row]
    /\ answers (Sample.request GET [] NoToken) db' [] = Some (json 200 (Rows rows), db')
    /\ In row rows
    /\ Events.event_id row = next_event_id Sample.db
    /\ Events.available_seats row = Events.capacity row.
Proof.
  apply (created_event_is_listed_with_all_seats
           (mk_request POST [] None None Sample.organizer7 Sample.title_and_date
                       None "https" "events.example.org")
           (Sample.request GET [] NoToken)
           (mk_identity 7 "organizer") Sample.db [] []);
    try reflexivity; try exact I.
  - split.
    + unfold events_keyed. simpl. repeat constructor; simpl; intuition discriminate.
    + intros e He. simpl in He.
      repeat (destruct He as [<-|He]; [simpl; lia|]). contradiction.
  - intros b Hb. simpl in Hb.
    repeat (destruct Hb as [<-|Hb]; [simpl; lia|]). contradiction.
Defined.

(** X20.  Creation then deletion: the caller who created an event can
    delete it by the id the creation answered with, and the events table
    is then what it was before the creation; only the counter has
    moved. *)
Theorem created_event_can_be_deleted
    (create delete : request) (user : identity) (id : string) (db : Db)
    (plan plan' : fault_plan) :
  req_method create = POST -> req_path create = [] ->
  authorization create = Token user ->
  Js.truthy (Body.title (req_body create)) = true ->
  Js.truthy (Body.date (req_body create)) = true ->
  lets_through 1 plan = true ->
  counter_ahead db ->
  req_method delete = DELETE -> req_path delete = [id] -> id <> "" ->
  authorization delete = Token user ->
  Sql.number id = next_event_id db ->
  lets_through 1 plan' = true ->
  exists db' db'',
    answers create db plan
    = Some (json 201 (Created "✅ Event created successfully" (Sql.number id)), db')
    /\ answers delete db' plan'
       = Some (json 200 (Message "🗑️ Event deleted successfully"), db'')
    /\ events db'' = events db
    /\ bookings db'' = bookings db
    /\ users db'' = users db
    /\ next_event_id db'' = next_event_id db + 1.
Proof.
  intros Hm Hp Hauth Ht Hd Hplan C Hm' Hp' Hid Hauth' Hnum Hplan'.
  exists (after_create create user db),
         (after_delete user id (after_create create user db)).
  assert (Hold : forall e, In e (events db) -> may_delete user id e = false).
  { intros e He. apply C in He.
    assert (E : (Events.event_id e =? Sql.number id) = false)
      by (apply Z.eqb_neq; lia).
    unfold may_delete, owns. rewrite E. now destruct (role user =? "admin")%string. }
  assert (Hnew : may_delete user id (created_row create user db) = true).
  { unfold may_delete, owns. cbn [created_row Events.event_id Events.organizer_id].
    rewrite Hnum, !Z.eqb_refl. now destruct (role user =? "admin")%string. }
  split; [|split; [|split; [|repeat split]]].
  - unfold answers. rewrite (route_create create Hm Hp). cbn [option_map].
    now rewrite (post_event_created create user db plan), Hnum.
  - unfold answers. rewrite (route_delete delete id Hm' Hp' Hid). cbn [option_map].
    rewrite delete_event_outcome, Hauth'.
    replace (filter (may_delete user id) (events (after_create create user db)))
      with [created_row create user db].
    + destruct plan' as [|[msg|] rest]; trivial. discriminate.
    + unfold after_create. cbn [events]. rewrite filter_app.
      rewrite (filter_none _ (events db)) by exact Hold.
      cbn [filter app]. now rewrite Hnew.
  - unfold after_delete, after_create. cbn [events]. rewrite filter_app.
    cbn [filter]. rewrite Hnew. cbn [negb]. rewrite app_nil_r.
    apply filter_all. intros e He. now rewrite Hold.
Qed.

Lemma created_event_can_be_deleted_witness :
  exists db' db'',
    answers (mk_request POST [] None None Sample.organizer7 Sample.title_and_date
                        None "https" "events.example.org") Sample.db []
    = Some (json 201 (Created "✅ Event created successfully" (Sql.number "4")), db')
    /\ answers (Sample.request DELETE ["4"] Sample.organizer7) db' []
       = Some (json 200 (Message "🗑️ Event deleted successfully"), db'')
    /\ events db'' = events Sample.db
    /\ bookings db'' = bookings Sample.db
    /\ users db'' = users Sample.db
    /\ next_event_id db'' = next_event_id Sample.db + 1.
Proof.
  apply (created_event_can_be_deleted
           (mk_request POST [] None None Sample.organizer7 Sample.title_and_date
                       None "https" "events.example.org")
           (Sample.request DELETE ["4"] Sample.organizer7)
           (mk_identity 7 "organizer") "4" Sample.db [] []);
    try reflexivity; try discriminate.
  intros e He. simpl in He.
  repeat (destruct He as [<-|He]; [simpl; lia|]). contradiction.
Defined.

(** ** Deleting: what is left after *)

Lemma filter_negb_idem {A} (p : A -> bool) (l : list A) :
  filter p (filter (fun x => negb (p x)) l) = [].
Proof.
  apply filter_none. intros x Hx. apply filter_In in Hx as [_ Hx].
  now apply negb_true_iff.
Qed.

Lemma filter_count_zero {A} (p : A -> bool) (l : list A) :
  (Z.of_nat (List.length (filter p l)) =? 0) = true ->
  filter (fun x => negb (p x)) l = l.
Proof.
  intros H. apply Z.eqb_eq in H.
  assert (E : filter p l = []) by (destruct (filter p l); [reflexivity | discriminate]).
  apply filter_all. intros x Hx.
  destruct (p x) eqn:Px; trivial.
  assert (Hin : In x (filter p l)) by now apply filter_In.
  rewrite E in Hin. contradiction.
Qed.

(** X21.  After a deletion the event is gone for every route: looking
    the id up is answered 404 "Event not found", and deleting it again
    is answered 404 "Event not found or unauthorized" and changes
    nothing. *)
Theorem deleted_event_is_gone
    (delete lookup : request) (user : identity) (id : string) (db : Db)
    (plan plan' : fault_plan) (e : Events.row) :
  req_method delete = DELETE -> req_path delete = [id] -> id <> "" ->
  authorization delete = Token user ->
  req_method lookup = GET -> req_path lookup = [id] ->
  events_keyed db -> In e (events db) -> Events.event_id e = Sql.number id ->
  Events.organizer_id e = user_id user \/ role user = "admin" ->
  lets_through 1 plan = true -> lets_through 1 plan' = true ->
  exists db',
    answers delete db plan
    = Some (json 200 (Message "🗑️ Event deleted successfully"), db')
    /\ answers lookup db' plan' = Some (json 404 (Error "Event not found"), db')
    /\ answers delete db' plan'
       = Some (json 404 (Error "Event not found or unauthorized"), db').
Proof.
  intros Hm Hp Hid Hauth Hm' Hp' K He Heid Hwho Hplan Hplan'.
  exists (after_delete user id db).
  assert (Hbyid : filter (fun x => Events.event_id x =? Sql.number id) (events db) = [e]).
  { rewrite <- Heid. now apply filter_key_unique. }
  assert (Hsel : filter (may_delete user id) (events db) = [e]).
  { unfold may_delete.
    destruct (role user =? "admin")%string eqn:Hadmin; [exact Hbyid|].
    destruct Hwho as [Horg | Hrole].
    - unfold owns. rewrite filter_both, Hbyid. simpl. now rewrite Horg, Z.eqb_refl.
    - apply String.eqb_neq in Hadmin. contradiction. }
  assert (Hgone : forall x, In x (events (after_delete user id db)) ->
                            Events.event_id x <> Sql.number id).
  { intros x Hx Hxid. unfold after_delete in Hx. cbn [events] in Hx.
    apply filter_In in Hx as [Hx Hn]. apply negb_true_iff in Hn.
    assert (Hin : In x (filter (fun y => Events.event_id y =? Sql.number id) (events db)))
      by (apply filter_In; split; trivial; now apply Z.eqb_eq).
    rewrite Hbyid in Hin. destruct Hin as [<-|[]].
    assert (Hin : In e (filter (may_delete user id) (events db)))
      by (rewrite Hsel; now left).
    apply filter_In in Hin as [_ Hin]. congruence. }
  split; [|split].
  - unfold answers. rewrite (route_delete delete id Hm Hp Hid). cbn [option_map].
    rewrite delete_event_outcome, Hauth, Hsel.
    destruct plan as [|[msg|] rest]; trivial. discriminate.
  - unfold answers. rewrite (route_single_event lookup id Hm' Hp' Hid).
    cbn [option_map]. rewrite get_event_outcome.
    rewrite (through_first (fun msg => json 500 (Error msg))) by assumption.
    unfold Stmt.select_event. rewrite filter_none; [reflexivity|].
    intros x Hx. apply Z.eqb_neq. now apply Hgone.
  - unfold answers. rewrite (route_delete delete id Hm Hp Hid). cbn [option_map].
    rewrite delete_event_outcome, Hauth.
    assert (Hnone : filter (may_delete user id) (events (after_delete user id db)) = [])
      by apply filter_negb_idem.
    rewrite Hnone. cbn [List.length Z.of_nat Z.eqb].
    replace (after_delete user id (after_delete user id db))
      with (after_delete user id db).
    + destruct plan' as [|[msg|] rest]; trivial. discriminate.
    + unfold after_delete at 1. cbn [events bookings users next_event_id].
      fold (after_delete user id db) in Hnone.
      unfold after_delete at 1. f_equal. symmetry. apply filter_all.
      intros x Hx. apply filter_In in Hx as [_ Hx]. exact Hx.
Qed.

Lemma deleted_event_is_gone_witness :
  exists db',
    answers (Sample.request DELETE ["2"] (Token (mk_identity 7 "admin"))) Sample.db []
    = Some (json 200 (Message "🗑️ Event deleted successfully"), db')
    /\ answers (Sample.request GET ["2"] NoToken) db' []
       = Some (json 404 (Error "Event not found"), db')
    /\ answers (Sample.request DELETE ["2"] (Token (mk_identity 7 "admin"))) db' []
       = Some (json 404 (Error "Event not found or unauthorized"), db').
Proof.
  apply (deleted_event_is_gone
           (Sample.request DELETE ["2"] (Token (mk_identity 7 "admin")))
           (Sample.request GET ["2"] NoToken)
           (mk_identity 7 "admin") "2" Sample.db [] []
           (Sample.event 2 1 8 20240501 93000));
    try reflexivity; try discriminate.
  - unfold events_keyed. simpl. repeat constructor; simpl; intuition discriminate.
  - simpl. tauto.
  - right. reflexivity.
Defined.

(** X22.  A DELETE writes to the events table only, and only by
    removing: bookings (also those of a deleted event), users and the
    counter are as they were, every event left was there before, and
    unless the answer is 200 nothing at all has changed. *)
Theorem delete_touches_events_only
    (req : request) (db : Db) (plan : fault_plan) (r : response) (db' : Db) :
  req_method req = DELETE ->
  answers req db plan = Some (r, db') ->
  bookings db' = bookings db
  /\ users db' = users db
  /\ next_event_id db' = next_event_id db
  /\ (forall x, In x (events db') -> In x (events db))
  /\ (code r <> 200 -> db' = db).
Proof.
  intros Hm. rewrite answers_table. unfold routing_table. rewrite Hm.
  destruct (strip_slash (req_path req)) as [|x [|y l]]; cbn [option_map]; try discriminate.
  destruct (x =? "")%string; cbn [option_map]; [discriminate|].
  rewrite delete_event_outcome.
  assert (Hdel : forall user,
             let hit := Z.of_nat (List.length (filter (may_delete user x) (events db)))
                        =? 0 in
             Some (if hit
                   then json 404 (Error "Event not found or unauthorized")
                   else json 200 (Message "🗑️ Event deleted successfully"),
                   after_delete user x db) = Some (r, db') ->
             bookings db' = bookings db
             /\ users db' = users db
             /\ next_event_id db' = next_event_id db
             /\ (forall e, In e (events db') -> In e (events db))
             /\ (code r <> 200 -> db' = db)).
  { intros user hit H. injection H as <- <-. unfold after_delete.
    cbn [bookings users next_event_id events].
    repeat split; trivial.
    - intros e He. now apply filter_In in He as [He _].
    - subst hit. destruct (_ =? 0) eqn:E; cbn [code json]; [intros _|tauto].
      rewrite (filter_count_zero _ _ E). now destruct db. }
  destruct (authorization req) as [| |user].
  - intros H. injection H as <- <-. repeat split; trivial.
  - intros H. injection H as <- <-. repeat split; trivial.
  - destruct plan as [|[msg|] rest]; try apply Hdel.
    intros H. injection H as <- <-. repeat split; trivial.
Qed.

Lemma delete_touches_events_only_witness :
  bookings (after_delete (mk_identity 7 "organizer") "1" Sample.db) = bookings Sample.db
  /\ users (after_delete (mk_identity 7 "organizer") "1" Sample.db) = users Sample.db
  /\ next_event_id (after_delete (mk_identity 7 "organizer") "1" Sample.db)
     = next_event_id Sample.db
  /\ (forall x, In x (events (after_delete (mk_identity 7 "organizer") "1" Sample.db)) ->
                In x (events Sample.db))
  /\ (code (json 200 (Message "🗑️ Event deleted successfully")) <> 200 ->
      after_delete (mk_identity 7 "organizer") "1" Sample.db = Sample.db).
Proof.
  apply (delete_touches_events_only (Sample.request DELETE ["1"] Sample.organizer7)
           Sample.db [] (json 200 (Message "🗑️ Event deleted successfully"))
           (after_delete (mk_identity 7 "organizer") "1" Sample.db));
    reflexivity.
Defined.

(** X23.  A POST adds one row at the end of the events table, with the
    id it answers, or changes nothing: unless the answer is 201 the
    tables are as they were, and bookings and users are never
    written. *)
Theorem create_adds_one_row_or_nothing
    (req : request) (db : Db) (plan : fault_plan) (r : response) (db' : Db) :
  req_method req = POST ->
  answers req db plan = Some (r, db') ->
  bookings db' = bookings db
  /\ users db' = users db
  /\ (code r = 201 ->
      exists row message,
        events db' = events db ++ [row]
        /\ body r = Created message (Events.event_id row)
        /\ Events.event_id row = next_event_id db
        /\ next_event_id db' = next_event_id db + 1)
  /\ (code r <> 201 -> db' = db).
Proof.
  intros Hm. rewrite answers_table. unfold routing_table. rewrite Hm.
  destruct (strip_slash (req_path req)) as [|x l]; cbn [option_map]; try discriminate.
  rewrite post_event_outcome.
  destruct (authorization req) as [| |user];
    [| |destruct (body_sent req);
        [destruct (_ && _); [destruct (lets_through 1 plan)|]|]];
    intros H; injection H as <- <-;
    repeat split; trivial; try discriminate; try (cbn; tauto).
  intros _. exists (created_row req user db). eexists.
  repeat split; reflexivity.
Qed.

Lemma create_adds_one_row_or_nothing_witness :
  bookings
    (after_create
       (mk_request POST [] None None Sample.organizer7 Sample.title_and_date
                   None "https" "events.example.org")
       (mk_identity 7 "organizer") Sample.db)
  = bookings Sample.db
  /\ users
       (after_create
          (mk_request POST [] None None Sample.organizer7 Sample.title_and_date
                      None "https" "events.example.org")
          (mk_identity 7 "organizer") Sample.db)
     = users Sample.db
  /\ (code (json 201 (Created "✅ Event created successfully" 4)) = 201 ->
      exists row message,
        events (after_create
                  (mk_request POST [] None None Sample.organizer7 Sample.title_and_date
                              None "https" "events.example.org")
                  (mk_identity 7 "organizer") Sample.db)
        = events Sample.db ++ [row]
        /\ body (json 201 (Created "✅ Event created successfully" 4))
           = Created message (Events.event_id row)
        /\ Events.event_id row = next_event_id Sample.db
        /\ next_event_id
             (after_create
                (mk_request POST [] None None Sample.organizer7 Sample.title_and_date
                            None "https" "events.example.org")
                (mk_identity 7 "organizer") Sample.db)
           = next_event_id Sample.db + 1)
  /\ (code (json 201 (Created "✅ Event created successfully" 4)) <> 201 ->
      after_create
        (mk_request POST [] None None Sample.organizer7 Sample.title_and_date
                    None "https" "events.example.org")
        (mk_identity 7 "organizer") Sample.db
      = Sample.db).
Proof.
  apply (create_adds_one_row_or_nothing
           (mk_request POST [] None None Sample.organizer7 Sample.title_and_date
                       None "https" "events.example.org")
           Sample.db []
           (json 201 (Created "✅ Event created successfully" 4))
           (after_create
              (mk_request POST [] None None Sample.organizer7 Sample.title_and_date
                          None "https" "events.example.org")
              (mk_identity 7 "organizer") Sample.db));
    reflexivity.
Defined.

(** ** Edges of the roster and of the public routes *)

(** X25.  The roster of an owned event that has no booking is empty
    and its [total_revenue] is 0, whatever the price of the event and
    whatever the users table holds. *)
Theorem roster_without_bookings
    (req : request) (user : identity) (id : string) (plan : fault_plan)
    (db : Db) (e : Events.row) :
  req_method req = GET -> req_path req = [id; "attendees"] -> id <> "" ->
  authorization req = Token user ->
  events_keyed db -> In e (events db) -> owns user id e = true ->
  bookings_of db (Events.event_id e) = [] ->
  lets_through 2 plan = true ->
  answers req db plan = Some (json 200 (Roster e [] 0), db).
Proof.
  intros Hm Hp Hid Hauth K He Ho Hnone Hplan.
  unfold answers. rewrite (route_attendees req id Hm Hp Hid). cbn [option_map].
  rewrite (get_attendees_roster id req user db plan e) by assumption.
  assert (E : Events.event_id e = Sql.number id).
  { unfold owns in Ho. apply andb_true_iff in Ho as [Ho _]. now apply Z.eqb_eq. }
  assert (Hatt : Stmt.select_attendees id db = []).
  { unfold Stmt.select_attendees. rewrite E in Hnone. unfold bookings_of in Hnone.
    induction (bookings db) as [|b bs IH]; [reflexivity|].
    cbn [filter] in Hnone. cbn [flat_map]. rewrite filter_app, map_app.
    destruct (Bookings.event_id b =? Sql.number id) eqn:Hb; [discriminate|].
    rewrite (IH Hnone), app_nil_r.
    rewrite filter_none; [reflexivity|].
    intros [b' u] Hin. apply in_map_iff in Hin as (u' & [= <- <-] & _). exact Hb. }
  rewrite Hatt. reflexivity.
Qed.

Lemma roster_without_bookings_witness :
  answers (Sample.request GET ["3"; "attendees"] Sample.organizer7) Sample.db []
  = Some (json 200 (Roster (Sample.event 3 5 7 20240502 0) [] 0), Sample.db).
Proof.
  apply (roster_without_bookings
           (Sample.request GET ["3"; "attendees"] Sample.organizer7)
           (mk_identity 7 "organizer") "3" [] Sample.db
           (Sample.event 3 5 7 20240502 0));
    try reflexivity; try discriminate.
  - unfold events_keyed. simpl. repeat constructor; simpl; intuition discriminate.
  - simpl. tauto.
Defined.

(** X26.  The listing and the lookup are public: their answer does not
    depend on the credential, so a request without a token, or with a
    rejected one, is answered like any other. *)
Theorem public_routes_ignore_credential
    (req : request) (who : credential) (db : Db) (plan : fault_plan) :
  req_method req = GET ->
  (req_path req = [] \/ exists id, req_path req = [id]) ->
  answers (with_authorization req who) db plan = answers req db plan.
Proof.
  intros Hm Hpath. rewrite !answers_table. unfold routing_table.
  cbn [with_authorization req_method req_path]. rewrite Hm.
  destruct Hpath as [-> | [id ->]]; [reflexivity|].
  cbn [strip_slash]. destruct (id =? "")%string eqn:E; [reflexivity|].
  now rewrite E.
Qed.

Lemma public_routes_ignore_credential_witness :
  answers (with_authorization (Sample.request GET ["1"] Sample.organizer7) BadToken)
          Sample.db []
  = answers (Sample.request GET ["1"] Sample.organizer7) Sample.db [].
Proof.
  apply (public_routes_ignore_credential
           (Sample.request GET ["1"] Sample.organizer7) BadToken Sample.db []);
    [reflexivity | right; exists "1"; reflexivity].
Defined.
